(** * Hyperproof client: request, authentication and pagination layer

    A shallow embedding of [hyperproof/utils.py] (class [APIClient]) and of the
    resource wrappers that drive it ([proof_api.py], [labels_api.py],
    [tasks_api.py]), followed by the properties of the transport layer.

    Python values are embedded as the inductive type [value]; a Python
    function that touches the client object or the network becomes a
    computation in the monad [M], which threads the [APIClient] object and the
    [World] (the outcomes of the HTTP calls still to come, and the log of the
    requests already issued) and may end in a raised exception. *)

From Stdlib Require Import String Ascii List ZArith Bool Lia.
From Stdlib Require Import DecimalString DecimalZ.
Import ListNotations.
Open Scope string_scope.
Open Scope list_scope.
Set Warnings "-register-all".

(** String concatenation, kept apart from the append of lists. *)
Infix "+++" := String.append (right associativity, at level 60).


(* ================================================================= *)
(** ** Python values *)

(** What [json.loads] can produce, plus [None].  A JSON object keeps the
    insertion order of its keys, as a Python [dict] does.  JSON numbers are
    the integers; strings are sequences of ASCII characters. *)
Inductive value : Type :=
| VNone
| VBool (b : bool)
| VInt (z : Z)
| VStr (s : string)
| VList (l : list value)
| VDict (d : list (string * value)).

(** Exceptions, with the part of the class hierarchy the handlers of
    [utils.py] distinguish. *)
Inductive exn : Type :=
| HTTPError
| ConnectionError
| Timeout
| RequestException
| JSONDecodeError
| ValueError (msg : string)
| TypeError
| AttributeError
| PermissionError (msg : string)
| OSError
| RuntimeError.

(** [except (HTTPError, ConnectionError, Timeout, RequestException)]:
    the first three derive from [RequestException], and so does the
    [JSONDecodeError] of [requests]. *)
Definition is_RequestException (e : exn) : bool :=
  match e with
  | HTTPError | ConnectionError | Timeout | RequestException | JSONDecodeError => true
  | _ => false
  end.

(** [except ValueError]: a JSON decoding error is a [ValueError]. *)
Definition is_ValueError (e : exn) : bool :=
  match e with
  | ValueError _ | JSONDecodeError => true
  | _ => false
  end.

(** Outcome of a Python call: a value, a raised exception, or a loop that
    was cut off by the iteration bound of the embedding. *)
Inductive result (A : Type) : Type :=
| Ok (a : A)
| Raise (e : exn)
| OutOfFuel.
Arguments Ok {A} a.
Arguments Raise {A} e.
Arguments OutOfFuel {A}.

Definition rbind {A B} (r : result A) (k : A -> result B) : result B :=
  match r with
  | Ok a => k a
  | Raise e => Raise e
  | OutOfFuel => OutOfFuel
  end.

(* ----------------------------------------------------------------- *)
(** *** Builtins on values *)

(** Truth value testing: [None], [False], zero and empty containers are
    false. *)
Definition truthy (v : value) : bool :=
  match v with
  | VNone => false
  | VBool b => b
  | VInt z => negb (Z.eqb z 0)
  | VStr s => negb (String.eqb s "")
  | VList l => match l with [] => false | _ => true end
  | VDict d => match d with [] => false | _ => true end
  end.

Fixpoint lookup (k : string) (d : list (string * value)) : option value :=
  match d with
  | [] => None
  | (k', v) :: d' => if String.eqb k k' then Some v else lookup k d'
  end.

Definition has_key (k : string) (d : list (string * value)) : bool :=
  match lookup k d with Some _ => true | None => false end.

(** [needle in hay] on strings: substring test. *)
Fixpoint contains (needle hay : string) : bool :=
  match hay with
  | EmptyString => String.prefix needle hay
  | String _ hay' => String.prefix needle hay || contains needle hay'
  end.

Definition is_str (s : string) (v : value) : bool :=
  match v with
  | VStr t => String.eqb s t
  | _ => false
  end.

(** [s in v] for a string [s]: key membership on a dict, element
    membership on a list, substring on a string; the other values are not
    iterable. *)
Definition py_in (s : string) (v : value) : result bool :=
  match v with
  | VDict d => Ok (has_key s d)
  | VList l => Ok (existsb (is_str s) l)
  | VStr t => Ok (contains s t)
  | VNone | VBool _ | VInt _ => Raise TypeError
  end.

(** [v.get(k, default)]: only a dict has the method. *)
Definition py_get (v : value) (k : string) (default : value) : result value :=
  match v with
  | VDict d => Ok (match lookup k d with Some x => x | None => default end)
  | _ => Raise AttributeError
  end.

Fixpoint chars (s : string) : list value :=
  match s with
  | EmptyString => []
  | String c s' => VStr (String c EmptyString) :: chars s'
  end.

(** Iteration: the elements of a list, the keys of a dict, the characters
    of a string. *)
Definition py_iter (v : value) : result (list value) :=
  match v with
  | VList l => Ok l
  | VDict d => Ok (map (fun kv => VStr (fst kv)) d)
  | VStr s => Ok (chars s)
  | VNone | VBool _ | VInt _ => Raise TypeError
  end.

(** [acc.extend(v)] *)
Definition py_extend (acc : list value) (v : value) : result (list value) :=
  rbind (py_iter v) (fun items => Ok (acc ++ items)).

(** [isinstance(v, list)] and [isinstance(v, dict)] *)
Definition is_list (v : value) : bool :=
  match v with VList _ => true | _ => false end.

Definition is_dict (v : value) : bool :=
  match v with VDict _ => true | _ => false end.

(** [len(v)] *)
Definition py_len (v : value) : result nat :=
  match v with
  | VList l => Ok (length l)
  | VDict d => Ok (length d)
  | VStr s => Ok (String.length s)
  | VNone | VBool _ | VInt _ => Raise TypeError
  end.

(** [a == b]: a boolean compares as the integer 0 or 1, lists compare
    element by element, dicts by their keys whatever the order. *)
Fixpoint py_eq (a b : value) {struct a} : bool :=
  match a, b with
  | VNone, VNone => true
  | VBool x, VBool y => Bool.eqb x y
  | VBool x, VInt z => Z.eqb (if x then 1 else 0) z
  | VInt z, VBool x => Z.eqb z (if x then 1 else 0)
  | VInt x, VInt y => Z.eqb x y
  | VStr s, VStr t => String.eqb s t
  | VList la, VList lb =>
      (fix all2 (la lb : list value) : bool :=
         match la, lb with
         | [], [] => true
         | x :: ra, y :: rb => py_eq x y && all2 ra rb
         | _, _ => false
         end) la lb
  | VDict da, VDict db =>
      Nat.eqb (length da) (length db)
      && (fix all (da : list (string * value)) : bool :=
            match da with
            | [] => true
            | (k, x) :: ra =>
                match lookup k db with
                | Some y => py_eq x y
                | None => false
                end && all ra
            end) da
  | _, _ => false
  end.

(* ----------------------------------------------------------------- *)
(** *** [str] and [repr] *)

Definition hex_digit (n : nat) : ascii :=
  match n with
  | 0 => "0" | 1 => "1" | 2 => "2" | 3 => "3" | 4 => "4" | 5 => "5" | 6 => "6"
  | 7 => "7" | 8 => "8" | 9 => "9" | 10 => "a" | 11 => "b" | 12 => "c"
  | 13 => "d" | 14 => "e" | _ => "f"
  end%char.

Definition repr_char (quote c : ascii) : string :=
  let n := nat_of_ascii c in
  if Ascii.eqb c quote || Ascii.eqb c "\"%char then String "\"%char (String c EmptyString)
  else if Nat.eqb n 9 then "\t"
  else if Nat.eqb n 10 then "\n"
  else if Nat.eqb n 13 then "\r"
  else if Nat.ltb n 32 || Nat.eqb n 127 then
    String "\"%char (String "x"%char
      (String (hex_digit (Nat.div n 16)) (String (hex_digit (Nat.modulo n 16)) EmptyString)))
  else String c EmptyString.

Fixpoint repr_chars (quote : ascii) (s : string) : string :=
  match s with
  | EmptyString => EmptyString
  | String c s' => repr_char quote c +++ repr_chars quote s'
  end.

Definition single_quote : ascii := ascii_of_nat 39.
Definition double_quote : ascii := ascii_of_nat 34.

Fixpoint has_char (c : ascii) (s : string) : bool :=
  match s with
  | EmptyString => false
  | String c' s' => Ascii.eqb c c' || has_char c s'
  end.

(** [repr] of a string: single quotes, unless the string holds a single
    quote and no double quote. *)
Definition repr_str (s : string) : string :=
  let quote :=
    if has_char single_quote s && negb (has_char double_quote s)
    then double_quote else single_quote in
  String quote (repr_chars quote s +++ String quote EmptyString).

Definition str_of_int (z : Z) : string := NilZero.string_of_int (Z.to_int z).

Fixpoint py_repr (v : value) : string :=
  match v with
  | VNone => "None"
  | VBool true => "True"
  | VBool false => "False"
  | VInt z => str_of_int z
  | VStr s => repr_str s
  | VList l =>
      "[" +++ (fix items (l : list value) : string :=
                match l with
                | [] => ""
                | x :: r =>
                    match r with
                    | [] => py_repr x
                    | _ :: _ => py_repr x +++ ", " +++ items r
                    end
                end) l +++ "]"
  | VDict d =>
      "{" +++ (fix items (d : list (string * value)) : string :=
                match d with
                | [] => ""
                | (k, x) :: r =>
                    match r with
                    | [] => repr_str k +++ ": " +++ py_repr x
                    | _ :: _ => repr_str k +++ ": " +++ py_repr x +++ ", " +++ items r
                    end
                end) d +++ "}"
  end.

(** [str(v)], which is what an f-string interpolates. *)
Definition py_str (v : value) : string :=
  match v with
  | VStr s => s
  | _ => py_repr v
  end.

(* ================================================================= *)
(** ** The [requests] library and the network *)

Inductive verb : Type := GET | POST | PUT | PATCH.

(** An HTTP response as the client reads it: [status_code], the
    [Content-Type] header if there is one, [text], and what [json()] gives:
    [None] here when the body does not parse (the call then raises). *)
Record Response : Type := mkResponse {
  status_code : Z;
  content_type : option string;
  text : string;
  json : option value
}.

(** An outgoing request, as handed to [requests]: the query and the form are
    the key/value pairs to be percent-encoded, [rq_json] the value serialised
    as the JSON body, [rq_files] the multipart parts (field name, content). *)
Record Request : Type := mkRequest {
  rq_method : verb;
  rq_url : string;
  rq_headers : list (string * string);
  rq_query : list (string * string);
  rq_form : list (string * string);
  rq_json : option value;
  rq_files : list (string * string)
}.

(** The outcome of one HTTP call: a response, or an exception raised by the
    transport. *)
Inductive NetEvent : Type :=
| NetResp (r : Response)
| NetRaise (e : exn).

(** [net]: outcomes of the HTTP calls still to come, in the order the calls
    are made (none left: the server is unreachable).  [sent]: every request
    issued so far, oldest first.  [disk]: the files that can be opened. *)
Record World : Type := mkWorld {
  net : list NetEvent;
  sent : list Request;
  disk : list (string * string)
}.

(** Model of the parameter encoding of [requests] (a third-party library, not
    part of the repository): [_encode_params] followed by
    [urlencode(doseq=True)], after their documented behaviour.  A key whose
    value is [None] is left out; a list value gives one pair per element that
    is not [None]; other values are rendered with [str]. *)
Definition param_values (v : value) : list value :=
  match v with
  | VList l => l
  | VDict d => map (fun kv => VStr (fst kv)) d
  | _ => [v]
  end.

Definition is_none (v : value) : bool :=
  match v with VNone => true | _ => false end.

Definition render_param (v : value) : list string :=
  match v with
  | VList l => map py_str l
  | VDict d => map fst d
  | _ => [py_str v]
  end.

Definition encode_param (kv : string * value) : list (string * string) :=
  flat_map (fun v => map (fun s => (fst kv, s)) (render_param v))
           (filter (fun v => negb (is_none v)) (param_values (snd kv))).

Definition encode_params (params : option (list (string * value))) : list (string * string) :=
  match params with
  | None => []
  | Some d => flat_map encode_param d
  end.

(** [response.raise_for_status()] *)
Definition raise_for_status (r : Response) : result unit :=
  if (400 <=? status_code r)%Z && (status_code r <? 600)%Z
  then Raise HTTPError else Ok tt.

(** [response.json()] *)
Definition response_json (r : Response) : result value :=
  match json r with
  | Some v => Ok v
  | None => Raise JSONDecodeError
  end.

(* ================================================================= *)
(** ** The client object and the monad of its methods *)

Record APIClient : Type := mkClient {
  client_id : value;
  client_secret : value;
  access_token : value
}.

Definition M (A : Type) : Type := APIClient -> World -> result A * APIClient * World.

Definition ret {A} (a : A) : M A := fun c w => (Ok a, c, w).

Definition raise {A} (e : exn) : M A := fun c w => (Raise e, c, w).

Definition bind {A B} (m : M A) (k : A -> M B) : M B :=
  fun c w =>
    match m c w with
    | (Ok a, c', w') => k a c' w'
    | (Raise e, c', w') => (Raise e, c', w')
    | (OutOfFuel, c', w') => (OutOfFuel, c', w')
    end.

Definition lift {A} (r : result A) : M A := fun c w => (r, c, w).

Notation "x <- m ;; k" := (bind m (fun x => k))
  (at level 61, m at next level, right associativity).
Notation "m ;;; k" := (bind m (fun _ => k))
  (at level 61, right associativity).

(** [try: m except E: h], where [handles] tells which exceptions [E]
    covers. *)
Definition try_except {A} (m : M A) (handles : exn -> bool) (h : exn -> M A) : M A :=
  fun c w =>
    match m c w with
    | (Raise e, c', w') => if handles e then h e c' w' else (Raise e, c', w')
    | r => r
    end.

(** The pure counterpart, for code that touches no state. *)
Definition rtry {A} (r : result A) (handles : exn -> bool) (h : exn -> result A) : result A :=
  match r with
  | Raise e => if handles e then h e else Raise e
  | _ => r
  end.

Definition any_Exception (e : exn) : bool := true.

Definition get_access_token : M value := fun c w => (Ok (access_token c), c, w).

Definition set_access_token (v : value) : M unit :=
  fun c w => (Ok tt, mkClient (client_id c) (client_secret c) v, w).

(** One call into [requests]: the request is issued (and logged), and the
    next outcome of the network is consumed. *)
Definition requests_call (rq : Request) : M Response :=
  fun c w =>
    let log := sent w ++ [rq] in
    match net w with
    | [] => (Raise ConnectionError, c, mkWorld [] log (disk w))
    | NetResp r :: rest => (Ok r, c, mkWorld rest log (disk w))
    | NetRaise e :: rest => (Raise e, c, mkWorld rest log (disk w))
    end.

(** [open(path, 'rb')], read in full by the multipart encoder. *)
Definition open_rb (path : string) : M string :=
  fun c w =>
    match find (fun f => String.eqb path (fst f)) (disk w) with
    | Some f => (Ok (snd f), c, w)
    | None => (Raise OSError, c, w)
    end.

(* ================================================================= *)
(** ** [utils.py]: class [APIClient]

    The calls to the logger are left out.  That includes the debug line each
    verb evaluates before its [try], which formats the parameters or the body
    with [json.dumps]: on the values of this embedding that call raises only
    at the limits of the interpreter (an integer of more than 4300 digits,
    nesting beyond the recursion limit), and these limits are not modelled.
    A verb is therefore modelled from its [try] on, and nothing below speaks
    of exceptions raised before it. *)

Definition TOKEN_ENDPOINT : string := "https://accounts.hyperproof.app/oauth/token".

Module APIClient.

(** [_parse_json(response)] *)
Definition _parse_json (response : Response) : result value :=
  rtry
    (if contains "application/json"
          (match content_type response with Some ct => ct | None => "" end)
     then response_json response
     else Ok (VDict []))
    is_ValueError (fun _ => Ok (VDict [])).

(** [_handle_response(response, raw)]; its three handlers ([HTTPError],
    [ValueError], [Exception]) all log and return [None]. *)
Definition _handle_response (response : Response) (raw : bool) : result value :=
  rtry
    (rbind (raise_for_status response) (fun _ =>
     if raw then Ok (VStr (text response))
     else _parse_json response))
    any_Exception (fun _ => Ok VNone).

(** [_authenticate()] *)
Definition _authenticate : M unit :=
  fun c w =>
    let params := [("grant_type", VStr "client_credentials");
                   ("client_id", client_id c);
                   ("client_secret", client_secret c)] in
    try_except
      (response <- requests_call
                     (mkRequest POST TOKEN_ENDPOINT [] [] (encode_params (Some params)) None []) ;;
       if (status_code response =? 200)%Z then
         response_json <- lift (_parse_json response) ;;
         token <- lift (py_get response_json "access_token" VNone) ;;
         set_access_token token
       else
         set_access_token VNone)
      is_RequestException (fun _ => set_access_token VNone)
      c w.

(** [__init__(client_id, client_secret)] *)
Definition __init__ (client_id client_secret : value) (w : World) : APIClient * World :=
  match try_except _authenticate any_Exception (fun _ => set_access_token VNone)
          (mkClient client_id client_secret VNone) w with
  | (_, c, w') => (c, w')
  end.

(** [_get_headers()] *)
Definition _get_headers : M (list (string * string)) :=
  token <- get_access_token ;;
  (if negb (truthy token) then _authenticate else ret tt) ;;;
  token <- get_access_token ;;
  ret [("Authorization", "Bearer " +++ py_str token);
       ("Content-Type", "application/json")].

(** [get(base_url, endpoint, params, raw)] *)
Definition get (base_url endpoint : string) (params : option (list (string * value)))
           (raw : bool) : M value :=
  let url := base_url +++ endpoint in
  try_except
    (headers <- _get_headers ;;
     response <- requests_call (mkRequest GET url headers (encode_params params) [] None []) ;;
     lift (_handle_response response raw))
    any_Exception (fun _ => ret VNone).

(** The JSON body [requests] sends for [json=data]: none for [None]. *)
Definition json_arg (data : value) : option value :=
  match data with VNone => None | _ => Some data end.

(** Truth value of the [files] argument: [None] and the empty dict are
    false. *)
Definition files_truthy (files : option (list (string * string))) : bool :=
  match files with
  | Some (_ :: _) => true
  | _ => false
  end.

Definition file_parts (files : option (list (string * string))) : list (string * string) :=
  match files with
  | Some parts => parts
  | None => []
  end.

(** [post(base_url, endpoint, data, files, raw)]: [files] is [None] or a
    dict from field names to opened files. *)
Definition post (base_url endpoint : string) (data : value)
           (files : option (list (string * string))) (raw : bool) : M value :=
  let url := base_url +++ endpoint in
  try_except
    (response <-
       (if files_truthy files then
          headers <- _get_headers ;;
          requests_call (mkRequest POST url headers [] [] None (file_parts files))
        else
          headers <- _get_headers ;;
          requests_call (mkRequest POST url headers [] [] (json_arg data) [])) ;;
     lift (_handle_response response raw))
    any_Exception (fun _ => ret VNone).

(** [put(base_url, endpoint, data, raw)] *)
Definition put (base_url endpoint : string) (data : value) (raw : bool) : M value :=
  let url := base_url +++ endpoint in
  try_except
    (headers <- _get_headers ;;
     response <- requests_call (mkRequest PUT url headers [] [] (json_arg data) []) ;;
     lift (_handle_response response raw))
    any_Exception (fun _ => ret VNone).

(** [patch(base_url, endpoint, data, raw)] *)
Definition patch (base_url endpoint : string) (data : value) (raw : bool) : M value :=
  let url := base_url +++ endpoint in
  try_except
    (headers <- _get_headers ;;
     response <- requests_call (mkRequest PATCH url headers [] [] (json_arg data) []) ;;
     lift (_handle_response response raw))
    any_Exception (fun _ => ret VNone).

(** The attributes of an instance: its three fields and the methods of the
    class. *)
Definition attributes : list string :=
  ["client_id"; "client_secret"; "access_token"; "__init__"; "_authenticate";
   "_get_headers"; "get"; "post"; "put"; "patch"; "_handle_response"; "_parse_json"].

(** [getattr(client, name)(base_url, endpoint, raw=raw)], the shape of call
    the resource wrappers make when they pass nothing but the target and
    the raw flag. *)
Definition call_method (name : string) (base_url endpoint : string) (raw : bool) : M value :=
  if String.eqb name "get" then get base_url endpoint None raw
  else if String.eqb name "post" then post base_url endpoint VNone None raw
  else if String.eqb name "put" then put base_url endpoint VNone raw
  else if String.eqb name "patch" then patch base_url endpoint VNone raw
  else if existsb (String.eqb name) attributes then raise TypeError
  else raise AttributeError.

End APIClient.

(* ================================================================= *)
(** ** [users_api.py]: class [UsersAPI] *)

Module UsersAPI.

Definition BASE_URL : string := "https://api.hyperproof.app/v1/users".

(** [get_current_user(expand, raw)] *)
Definition get_current_user (expand : value) (raw : bool) : M value :=
  let params := [("expand", expand)] in
  APIClient.get BASE_URL "/me" (Some params) raw.

(** [get_organization_users(expand, include_deactivated, raw)] *)
Definition get_organization_users (expand include_deactivated : value) (raw : bool)
  : M value :=
  let params := [("expand", expand); ("includeDeactivated", include_deactivated)] in
  APIClient.get BASE_URL "/" (Some params) raw.

End UsersAPI.

(* ================================================================= *)
(** ** [labels_api.py]: class [LabelsAPI] *)

Module LabelsAPI.

Definition BASE_URL : string := "https://api.hyperproof.app/v1/labels".

(** [get_label_summaries(can_link, status, raw)] *)
Definition get_label_summaries (can_link status : value) (raw : bool) : M value :=
  let params := [("canLink", can_link); ("status", status)] in
  APIClient.get BASE_URL "/summaries" (Some params) raw.

End LabelsAPI.

(* ================================================================= *)
(** ** [tasks_api.py]: class [TasksAPI] *)

Module TasksAPI.

Definition BASE_URL : string := "https://api.hyperproof.app/v1/tasks".

(** [delete_task_comment(task_id, comment_id, raw)]: the body is the call
    [self.client.delete(BASE_URL, f"/{task_id}/comments/{comment_id}", raw=raw)]. *)
Definition delete_task_comment (task_id comment_id : value) (raw : bool) : M value :=
  APIClient.call_method "delete" BASE_URL
    ("/" +++ py_str task_id +++ "/comments/" +++ py_str comment_id) raw.

(** [add_task(title, target_object, description, assignee_id, priority,
    due_date, has_integration, raw)] *)
Definition add_task (title target_object description assignee_id priority due_date
                     has_integration : value) (raw : bool) : M value :=
  let data := VDict [("title", title); ("targetObject", target_object);
                     ("description", description); ("assigneeId", assignee_id);
                     ("priority", priority); ("dueDate", due_date);
                     ("hasIntegration", has_integration)] in
  APIClient.post BASE_URL "/" data None raw.

(** [get_task_by_id(task_id, raw)] *)
Definition get_task_by_id (task_id : value) (raw : bool) : M value :=
  APIClient.get BASE_URL ("/" +++ py_str task_id) None raw.

(** [update_task(task_id, title, description, assignee_id, target_id,
    target_type, task_status_id, priority, sort_order, due_date, raw)] *)
Definition update_task (task_id title description assignee_id target_id target_type
                        task_status_id priority sort_order due_date : value) (raw : bool)
  : M value :=
  let data := VDict [("title", title); ("description", description);
                     ("assigneeId", assignee_id); ("targetId", target_id);
                     ("targetType", target_type); ("taskStatusId", task_status_id);
                     ("priority", priority); ("sortOrder", sort_order);
                     ("dueDate", due_date)] in
  APIClient.patch BASE_URL ("/" +++ py_str task_id) data raw.

(** [add_task_proof(task_id, file_path, proof_owned_by, proof_source,
    proof_source_id, proof_source_file_id, proof_source_modified_on,
    proof_live_sync_enabled, raw)] *)
Definition add_task_proof (task_id : value) (file_path : string)
           (proof_owned_by proof_source proof_source_id proof_source_file_id
            proof_source_modified_on proof_live_sync_enabled : value) (raw : bool)
  : M value :=
  file <- open_rb file_path ;;
  let files := [("proof", file)] in
  let data := VDict [("hp-proof-owned-by", proof_owned_by);
                     ("hp-proof-source", proof_source);
                     ("hp-proof-source-id", proof_source_id);
                     ("hp-proof-source-file-id", proof_source_file_id);
                     ("hp-proof-source-modified-on", proof_source_modified_on);
                     ("hp-proof-live-sync-enabled", proof_live_sync_enabled)] in
  APIClient.post BASE_URL ("/" +++ py_str task_id +++ "/proof") data (Some files) raw.

(** [get_task_proof_metadata(task_id, raw)] *)
Definition get_task_proof_metadata (task_id : value) (raw : bool) : M value :=
  APIClient.get BASE_URL ("/" +++ py_str task_id +++ "/proof") None raw.

(** [x if isinstance(x, list) else [x]] *)
Definition as_list (v : value) : value :=
  if is_list v then v else VList [v].

(** The part of [filter_tasks] that merges [assignee_ids] and
    [assignee_id]: the value of the local [assignee_ids] after it.  (When the
    caller passed a list, the append is done in place on that list.) *)
Definition conflate_assignees (assignee_ids assignee_id : value) : result value :=
  let assignee_ids :=
    if truthy assignee_ids && negb (is_list assignee_ids)
    then VList [assignee_ids] else assignee_ids in
  if truthy assignee_id then
    if negb (truthy assignee_ids) then Ok (VList [assignee_id])
    else match assignee_ids with
         | VList l => Ok (VList (l ++ [assignee_id]))
         | _ => Raise AttributeError
         end
  else Ok assignee_ids.

(** The filter [filter_tasks] builds in [data]. *)
Definition filter_data (target_object_type target_object_ids task_ids assignee_ids
                        assignee_id modified_after : value)
  : result (list (string * value)) :=
  let data := [] in
  let data := if truthy target_object_type
              then data ++ [("targetObjectType", target_object_type)] else data in
  let data := if truthy target_object_ids
              then data ++ [("targetObjectIds", as_list target_object_ids)] else data in
  let data := if truthy task_ids
              then data ++ [("taskIds", as_list task_ids)] else data in
  rbind (conflate_assignees assignee_ids assignee_id) (fun assignee_ids =>
  let data := if truthy assignee_ids
              then data ++ [("assigneeIds", assignee_ids)] else data in
  let data := if truthy modified_after
              then data ++ [("modifiedAfter", modified_after)] else data in
  Ok data).

(** [filter_tasks(target_object_type, target_object_ids, task_ids,
    assignee_ids, assignee_id, modified_after, raw)] *)
Definition filter_tasks (target_object_type target_object_ids task_ids assignee_ids
                         assignee_id modified_after : value) (raw : bool) : M value :=
  data <- lift (filter_data target_object_type target_object_ids task_ids assignee_ids
                            assignee_id modified_after) ;;
  APIClient.put BASE_URL "/filter" (VDict data) raw.

(** [get_task_comments(task_id, raw)] *)
Definition get_task_comments (task_id : value) (raw : bool) : M value :=
  APIClient.get BASE_URL ("/" +++ py_str task_id +++ "/comments") None raw.

(** [add_task_comment(task_id, comment_text_formatted, is_internal_comment,
    object_type, object_id, raw)] *)
Definition add_task_comment (task_id comment_text_formatted is_internal_comment
                             object_type object_id : value) (raw : bool) : M value :=
  let data := VDict [("commentTextFormatted", comment_text_formatted);
                     ("isInternalComment", is_internal_comment);
                     ("objectType", object_type); ("objectId", object_id)] in
  APIClient.post BASE_URL ("/" +++ py_str task_id +++ "/comments") data None raw.

(** [update_task_comment(task_id, comment_id, comment_text_formatted,
    is_internal_comment, object_type, object_id, raw)] *)
Definition update_task_comment (task_id comment_id comment_text_formatted
                                is_internal_comment object_type object_id : value)
           (raw : bool) : M value :=
  let data := VDict [("commentTextFormatted", comment_text_formatted);
                     ("isInternalComment", is_internal_comment);
                     ("objectType", object_type); ("objectId", object_id)] in
  APIClient.patch BASE_URL
    ("/" +++ py_str task_id +++ "/comments/" +++ py_str comment_id) data raw.

Definition no_users_found : value := VDict [("error", VStr "No users found.")].

Definition no_tasks_found : value := VDict [("error", VStr "No tasks found.")].

(** The [for user in users] loop of [get_all_tasks].  The debug line that
    follows the call of [filter_tasks] takes [len] of a true result. *)
Fixpoint tasks_of_users (raw : bool) (users : list value) (all_tasks : list value)
  : M (list value) :=
  match users with
  | [] => ret all_tasks
  | user :: rest =>
      user_id <- lift (py_get user "id" VNone) ;;
      if negb (truthy user_id) then tasks_of_users raw rest all_tasks
      else
        tasks_for_user <- filter_tasks VNone VNone VNone (VList [user_id]) VNone VNone raw ;;
        lift (if truthy tasks_for_user then py_len tasks_for_user else Ok O) ;;;
        all_tasks' <- lift (if truthy tasks_for_user
                            then py_extend all_tasks tasks_for_user
                            else Ok all_tasks) ;;
        tasks_of_users raw rest all_tasks'
  end.

(** [get_all_tasks(raw)] *)
Definition get_all_tasks (raw : bool) : M value :=
  users <- UsersAPI.get_organization_users VNone (VBool false) false ;;
  if negb (truthy users) then ret no_users_found
  else
    items <- lift (py_iter users) ;;
    all_tasks <- tasks_of_users raw items [] ;;
    match all_tasks with
    | [] => ret no_tasks_found
    | _ :: _ => ret (VList all_tasks)
    end.

End TasksAPI.

(* ================================================================= *)
(** ** [proof_api.py]: class [ProofAPI] *)

Module ProofAPI.

Definition BASE_URL : string := "https://api.hyperproof.app/v1/proof".

Definition no_data : exn :=
  ValueError "No data returned from get_proof_metadata_collection.".

(** The query of one page request. *)
Definition page_params (limit sort_by sort_direction object_type object_id next_token : value)
  : list (string * value) :=
  [("limit", limit); ("sortBy", sort_by); ("sortDirection", sort_direction);
   ("objectType", object_type); ("objectId", object_id); ("nextToken", next_token)].

(** What one pass of the [while True] of [get_proof_metadata_collection]
    does with the fetched [response]: the new accumulator and the
    continuation token. *)
Definition collect_page (all_proofs : list value) (response : value)
  : result (list value * value) :=
  rbind (if negb (truthy response) then Ok true
         else rbind (py_in "data" response) (fun present => Ok (negb present)))
    (fun missing =>
       if missing : bool then Raise no_data
       else
         rbind (py_get response "data" (VList [])) (fun data =>
         rbind (py_extend all_proofs data) (fun all_proofs' =>
         rbind (py_get response "continuationToken" VNone) (fun next_token =>
         Ok (all_proofs', next_token))))).

(** The [while True] loop of [get_proof_metadata_collection], cut off after
    [fuel] passes. *)
Fixpoint collection_loop (fuel : nat)
         (limit sort_by sort_direction object_type object_id : value)
         (all_proofs : list value) (next_token : value) : M (list value) :=
  match fuel with
  | O => lift OutOfFuel
  | S fuel' =>
      let params :=
        page_params limit sort_by sort_direction object_type object_id next_token in
      response <- APIClient.get BASE_URL "/" (Some params) false ;;
      step <- lift (collect_page all_proofs response) ;;
      if negb (truthy (snd step)) then ret (fst step)
      else collection_loop fuel' limit sort_by sort_direction object_type object_id
                           (fst step) (snd step)
  end.

(** [get_proof_metadata_collection(limit, sort_by, sort_direction,
    object_type, object_id, raw)].  Every further pass needs a response of
    the network, so one pass more than there are outcomes left is enough. *)
Definition get_proof_metadata_collection
           (limit sort_by sort_direction object_type object_id : value) (raw : bool)
  : M value :=
  fun c w =>
    (all_proofs <- collection_loop (S (length (net w)))
                     limit sort_by sort_direction object_type object_id [] VNone ;;
     if raw then ret (VList all_proofs) else ret (VList all_proofs)) c w.

(** [add_proof(file_path, object_id, object_type, raw)] *)
Definition add_proof (file_path : string) (object_id object_type : value) (raw : bool)
  : M value :=
  file <- open_rb file_path ;;
  let files := [("file", file)] in
  let data :=
    if truthy object_id && truthy object_type
    then [("objectId", object_id); ("objectType", object_type)]
    else [] in
  APIClient.post BASE_URL "/" (VDict data) (Some files) raw.

Section Label.

(** [re.search(pattern, string, re.IGNORECASE)] as a truth value; the
    regular-expression engine is left open. *)
Variable re_search : string -> string -> result bool.

Definition search_name (label_name : string) (name : value) : result bool :=
  match name with
  | VStr s => re_search label_name s
  | _ => Raise TypeError
  end.

(** [next((label for label in label_summaries if re.search(...)), None)] *)
Fixpoint first_matching (label_name : string) (labels : list value) : result value :=
  match labels with
  | [] => Ok VNone
  | label :: rest =>
      rbind (py_get label "name" (VStr "")) (fun name =>
      rbind (search_name label_name name) (fun found =>
      if found : bool then Ok label else first_matching label_name rest))
  end.

(** One pass of the loop of [get_proof_by_label] on the fetched
    [response]. *)
Definition collect_label_page (label_name : string) (all_proofs : list value)
           (response : value) : result (list value * value) :=
  if is_none response then
    Raise (PermissionError ("Access to the label '" +++ label_name +++
             "' is forbidden. Please ensure you have joined the label."))
  else
    rbind (py_in "data" response) (fun present =>
    if negb present then Raise no_data
    else
      rbind (py_get response "data" (VList [])) (fun data =>
      rbind (py_extend all_proofs data) (fun all_proofs' =>
      rbind (py_get response "continuationToken" VNone) (fun next_token =>
      Ok (all_proofs', next_token))))).

(** The loop of [get_proof_by_label]; it leaves with the accumulator and
    the last [response]. *)
Fixpoint label_loop (fuel : nat) (label_name : string)
         (limit sort_by sort_direction label_id : value)
         (all_proofs : list value) (next_token : value) : M (list value * value) :=
  match fuel with
  | O => lift OutOfFuel
  | S fuel' =>
      let params :=
        page_params limit sort_by sort_direction (VStr "label") label_id next_token in
      response <- APIClient.get BASE_URL "/" (Some params) false ;;
      step <- lift (collect_label_page label_name all_proofs response) ;;
      if negb (truthy (snd step)) then ret (fst step, response)
      else label_loop fuel' label_name limit sort_by sort_direction label_id
                      (fst step) (snd step)
  end.

(** The part of [get_proof_by_label] before the loop: the id of the
    first label whose name matches. *)
Definition find_label_id (label_name : string) : M value :=
  label_summaries <- LabelsAPI.get_label_summaries VNone VNone false ;;
  labels <- lift (py_iter label_summaries) ;;
  matching_label <- lift (first_matching label_name labels) ;;
  if negb (truthy matching_label) then
    raise (ValueError ("No label found with the name: " +++ label_name))
  else
    lift (py_get matching_label "id" VNone).

(** [get_proof_by_label(label_name, limit, sort_by, sort_direction, raw)] *)
Definition get_proof_by_label (label_name : string)
           (limit sort_by sort_direction : value) (raw : bool) : M value :=
  label_id <- find_label_id label_name ;;
  fun c w =>
    (out <- label_loop (S (length (net w))) label_name
              limit sort_by sort_direction label_id [] VNone ;;
     if negb raw then ret (VList (fst out)) else ret (snd out)) c w.

End Label.

(** [get_proof_metadata(proof_id, raw)] *)
Definition get_proof_metadata (proof_id : value) (raw : bool) : M value :=
  APIClient.get BASE_URL ("/" +++ py_str proof_id) None raw.

(** [add_proof_version(proof_id, file_path, raw)] *)
Definition add_proof_version (proof_id : value) (file_path : string) (raw : bool)
  : M value :=
  file <- open_rb file_path ;;
  let files := [("file", file)] in
  APIClient.post BASE_URL ("/" +++ py_str proof_id +++ "/versions") VNone (Some files) raw.

(** [get_proof_contents(proof_id, version, raw)] *)
Definition get_proof_contents (proof_id version : value) (raw : bool) : M value :=
  let params := if truthy version then [("version", version)] else [] in
  APIClient.get BASE_URL ("/" +++ py_str proof_id +++ "/contents") (Some params) raw.

(** The test [get_proof_by_user] makes on one user of the organisation:
    the [if]/[elif] chain over [userid], [givenName] and [surname]. *)
Definition user_matches (userid givenName surname user : value) : result bool :=
  rbind (if truthy userid then
           rbind (py_get user "id" VNone) (fun id =>
           if py_eq id userid then Ok true
           else rbind (py_get user "userId" VNone) (fun uid => Ok (py_eq uid userid)))
         else Ok false)
    (fun by_id =>
       if by_id : bool then Ok true
       else if truthy givenName && truthy surname then
         rbind (py_get user "givenName" VNone) (fun g =>
         if py_eq g givenName
         then rbind (py_get user "surname" VNone) (fun s => Ok (py_eq s surname))
         else Ok false)
       else
         rbind (if truthy givenName
                then rbind (py_get user "givenName" VNone) (fun g => Ok (py_eq g givenName))
                else Ok false)
           (fun by_given =>
              if by_given : bool then Ok true
              else if truthy surname
                   then rbind (py_get user "surname" VNone) (fun s => Ok (py_eq s surname))
                   else Ok false)).

(** The loop that collects [filtered_users]. *)
Fixpoint filter_users (userid givenName surname : value) (users : list value)
  : result (list value) :=
  match users with
  | [] => Ok []
  | user :: rest =>
      rbind (user_matches userid givenName surname user) (fun keep =>
      rbind (filter_users userid givenName surname rest) (fun others =>
      Ok (if keep : bool then user :: others else others)))
  end.

(** [created_by == user.get('id') or created_by == user.get('userId')] *)
Definition created_by_user (created_by user : value) : result bool :=
  rbind (py_get user "id" VNone) (fun id =>
  if py_eq created_by id then Ok true
  else rbind (py_get user "userId" VNone) (fun uid => Ok (py_eq created_by uid))).

(** The inner loop over [filtered_users]: [proof] is appended once for
    every user that matches. *)
Fixpoint copies_for (proof created_by : value) (users : list value)
  : result (list value) :=
  match users with
  | [] => Ok []
  | user :: rest =>
      rbind (created_by_user created_by user) (fun hit =>
      rbind (copies_for proof created_by rest) (fun others =>
      Ok (if hit : bool then proof :: others else others)))
  end.

(** The loop that collects [user_proofs]; a record that is not a dict is
    reported on standard output and skipped. *)
Fixpoint user_proofs_of (all_proofs filtered_users : list value) : result (list value) :=
  match all_proofs with
  | [] => Ok []
  | proof :: rest =>
      rbind (if is_dict proof then
               rbind (py_get proof "createdBy" VNone) (fun created_by =>
               copies_for proof created_by filtered_users)
             else Ok [])
        (fun here =>
           rbind (user_proofs_of rest filtered_users) (fun more => Ok (here ++ more)))
  end.

(** [get_proof_by_user(userid, givenName, surname, object_type, object_id,
    raw)]; its [while True] is the loop of [get_proof_metadata_collection],
    run with limit 500 and sorted by [createdBy], descending. *)
Definition get_proof_by_user (userid givenName surname object_type object_id : value)
           (raw : bool) : M value :=
  org_users <- UsersAPI.get_organization_users VNone (VBool false) false ;;
  if raw then ret org_users
  else
    users <- lift (py_iter org_users) ;;
    filtered_users <- lift (filter_users userid givenName surname users) ;;
    match filtered_users with
    | [] => ret (VList [])
    | _ :: _ =>
        fun c w =>
          (all_proofs <- collection_loop (S (length (net w))) (VInt 500)
                           (VStr "createdBy") (VStr "desc") object_type object_id
                           [] VNone ;;
           user_proofs <- lift (user_proofs_of all_proofs filtered_users) ;;
           ret (VList user_proofs)) c w
    end.

End ProofAPI.

(* ================================================================= *)
(** ** Vocabulary of the properties *)

(** The request [_authenticate] posts to the token endpoint. *)
Definition auth_request (c : APIClient) : Request :=
  mkRequest POST TOKEN_ENDPOINT [] []
    (encode_params (Some [("grant_type", VStr "client_credentials");
                          ("client_id", client_id c);
                          ("client_secret", client_secret c)]))
    None [].

(** The outcome the next HTTP call will meet. *)
Definition next_event (w : World) : NetEvent :=
  match net w with
  | [] => NetRaise ConnectionError
  | ev :: _ => ev
  end.

(** The world once [rq] has been issued. *)
Definition after_call (w : World) (rq : Request) : World :=
  mkWorld (tl (net w)) (sent w ++ [rq]) (disk w).

Definition with_token (c : APIClient) (token : value) : APIClient :=
  mkClient (client_id c) (client_secret c) token.

Definition is_auth_request (rq : Request) : bool :=
  match rq_method rq with
  | POST => String.eqb (rq_url rq) TOKEN_ENDPOINT
  | _ => false
  end.

(** Number of authentication attempts in a log of requests. *)
Definition auth_attempts (log : list Request) : nat :=
  length (filter is_auth_request log).

Definition is_get (rq : Request) : bool :=
  match rq_method rq with
  | GET => true
  | _ => false
  end.

(** Number of GET requests in a log of requests. *)
Definition fetches (log : list Request) : nat :=
  length (filter is_get log).

(** The outcomes of the token request on which authentication fails: a
    status other than 200, or an exception of the [requests] family. *)
Definition auth_failure (ev : NetEvent) : bool :=
  match ev with
  | NetResp r => negb (status_code r =? 200)%Z
  | NetRaise e => is_RequestException e
  end.

(** The token [_authenticate] leaves in the slot, by outcome of the token
    request, when it returns. *)
Definition token_after (ev : NetEvent) : result value :=
  match ev with
  | NetResp r =>
      if (status_code r =? 200)%Z
      then rbind (APIClient._parse_json r) (fun body => py_get body "access_token" VNone)
      else Ok VNone
  | NetRaise e => if is_RequestException e then Ok VNone else Raise e
  end.

(** The headers [_get_headers] builds from the token in the slot. *)
Definition headers_of (token : value) : list (string * string) :=
  [("Authorization", "Bearer " +++ py_str token);
   ("Content-Type", "application/json")].

(** The continuation token a page carries ([None] when the field is
    missing) and its records. *)
Definition continuation (d : list (string * value)) : value :=
  match lookup "continuationToken" d with
  | Some t => t
  | None => VNone
  end.

Definition records (d : list (string * value)) : list value :=
  match lookup "data" d with
  | Some (VList l) => l
  | _ => []
  end.

(** [page_run mk c w token pages c' w']: starting in state [(c, w)] with
    continuation token [token], successive calls of
    [client.get(BASE_URL, "/", params=mk token)] return the envelopes
    [pages], one per call, and leave the state [(c', w')].  Every envelope is
    a mapping whose [data] is a list; every one but the last carries a
    non-empty continuation token, which is the token of the next call; the
    last carries none, or an empty one. *)
Inductive page_run (mk : value -> list (string * value))
  : APIClient -> World -> value -> list (list (string * value)) ->
    APIClient -> World -> Prop :=
| run_last : forall c w token d l c' w',
    APIClient.get ProofAPI.BASE_URL "/" (Some (mk token)) false c w = (Ok (VDict d), c', w') ->
    lookup "data" d = Some (VList l) ->
    truthy (continuation d) = false ->
    page_run mk c w token [d] c' w'
| run_more : forall c w token d l pages c1 w1 c' w',
    APIClient.get ProofAPI.BASE_URL "/" (Some (mk token)) false c w = (Ok (VDict d), c1, w1) ->
    lookup "data" d = Some (VList l) ->
    truthy (continuation d) = true ->
    page_run mk c1 w1 (continuation d) pages c' w' ->
    page_run mk c w token (d :: pages) c' w'.

(** Scalars, which [requests] renders as one query pair. *)
Definition is_scalar (v : value) : bool :=
  match v with
  | VBool _ | VInt _ | VStr _ => true
  | _ => false
  end.

(** The field names a request carries, in its query, form, JSON body or
    multipart parts. *)
Definition field_names (rq : Request) : list string :=
  map fst (rq_query rq) ++ map fst (rq_form rq)
  ++ match rq_json rq with
     | Some (VDict d) => map fst d
     | _ => []
     end
  ++ map fst (rq_files rq).

(** What a verb returns once its request has met the outcome [ev]: the
    normalised response, or [None] when the transport raised. *)
Definition outcome_value (ev : NetEvent) (raw : bool) : result value :=
  match ev with
  | NetResp r => APIClient._handle_response r raw
  | NetRaise _ => Ok VNone
  end.

(** The request [post] issues with the headers [headers]. *)
Definition post_request (url : string) (headers : list (string * string)) (data : value)
           (files : option (list (string * string))) : Request :=
  if APIClient.files_truthy files
  then mkRequest POST url headers [] [] None (APIClient.file_parts files)
  else mkRequest POST url headers [] [] (APIClient.json_arg data) [].

(** The request of one page, for the continuation token [token]. *)
Definition page_request (c : APIClient)
           (limit sort_by sort_direction object_type object_id token : value) : Request :=
  mkRequest GET (ProofAPI.BASE_URL +++ "/") (headers_of (access_token c))
    (encode_params (Some (ProofAPI.page_params limit sort_by sort_direction
                            object_type object_id token)))
    [] None [].

(** A string of one character. *)
Definition is_char (v : value) : bool :=
  match v with
  | VStr (String _ EmptyString) => true
  | _ => false
  end.

(** The provenance fields [add_task_proof] puts in [data]. *)
Definition provenance_fields : list string :=
  ["hp-proof-owned-by"; "hp-proof-source"; "hp-proof-source-id";
   "hp-proof-source-file-id"; "hp-proof-source-modified-on";
   "hp-proof-live-sync-enabled"].

(** The response says its body is JSON. *)
Definition labelled_json (r : Response) : bool :=
  contains "application/json"
           (match content_type r with Some ct => ct | None => "" end).

(** The members of an id filter: those of a list, the value itself when it
    is not a list, none when it is false. *)
Definition members (v : value) : list value :=
  if truthy v then match v with VList l => l | _ => [v] end else [].



(* ================================================================= *)
(** ** Sample data *)

Definition json_response (status : Z) (body : value) : Response :=
  mkResponse status (Some "application/json") (py_repr body) (Some body).

Definition sample_client : APIClient :=
  mkClient (VStr "id") (VStr "secret") (VStr "tok123").

Definition fresh_client : APIClient :=
  mkClient (VStr "id") (VStr "secret") VNone.

Definition page1 : list (string * value) :=
  [("data", VList [VDict [("id", VStr "p1")]; VDict [("id", VStr "p2")]]);
   ("continuationToken", VStr "abc")].

Definition page2 : list (string * value) :=
  [("data", VList [VDict [("id", VStr "p3")]])].

Definition two_pages : World :=
  mkWorld [NetResp (json_response 200 (VDict page1));
           NetResp (json_response 200 (VDict page2))] [] [].

(** A page whose [data] field is present and holds JSON [null]. *)
Definition null_data_world : World :=
  mkWorld [NetResp (json_response 200 (VDict [("data", VNone)]))] [] [].

(** The next call is answered [404 Not Found]. *)
Definition not_found_world : World :=
  mkWorld [NetResp (json_response 404 (VDict [("message", VStr "Not Found")]))] [] [].

(** The token endpoint refuses the credentials. *)
Definition unauthorized_world : World :=
  mkWorld [NetResp (json_response 401 (VDict [("error", VStr "invalid_client")]))] [] [].

(** A client whose slot holds the empty string. *)
Definition empty_token_client : APIClient :=
  mkClient (VStr "id") (VStr "secret") (VStr "").

(** A 200 response labelled JSON whose body does not parse. *)
Definition malformed_response : Response :=
  mkResponse 200 (Some "application/json; charset=utf-8") "<html>oops" None.

Definition not_found_response : Response :=
  json_response 404 (VDict [("message", VStr "Not Found")]).

(** One file on disk and a server that accepts the upload. *)
Definition upload_world : World :=
  mkWorld [NetResp (json_response 200 (VDict [("id", VStr "proof-1")]))] []
          [("evidence.pdf", "%PDF-1.7")].

(** A stand-in for the regular-expression engine: substring search. *)
Definition substring_search (pattern s : string) : result bool :=
  Ok (contains pattern s).

(** The label summaries, then the two pages of proof of the label. *)
Definition label_world : World :=
  mkWorld [NetResp (json_response 200
                      (VList [VDict [("id", VStr "L1"); ("name", VStr "SOC2 evidence")]]));
           NetResp (json_response 200 (VDict page1));
           NetResp (json_response 200 (VDict page2))] [] [].

(** The token endpoint grants [tok123]; the call that follows is answered
    with the second page. *)
Definition granting_world : World :=
  mkWorld [NetResp (json_response 200 (VDict [("access_token", VStr "tok123")]));
           NetResp (json_response 200 (VDict page2))] [] [].

(** The token endpoint answers 200 with a JSON list. *)
Definition list_token_world : World :=
  mkWorld [NetResp (json_response 200 (VList [VStr "tok123"]));
           NetResp (json_response 200 (VDict page2))] [] [].

(** One user of the organisation, then the raw body of the tasks assigned
    to that user. *)
Definition tasks_world : World :=
  mkWorld [NetResp (json_response 200 (VList [VDict [("id", VStr "u-1")]]));
           NetResp (mkResponse 200 (Some "application/json") "[7]" (Some (VList [VInt 7])))]
          [] [].

(** Two users of the organisation, then one page of proof. *)
Definition users_world : World :=
  mkWorld [NetResp (json_response 200
                      (VList [VDict [("id", VStr "u-1"); ("givenName", VStr "Ada")];
                              VDict [("id", VStr "u-2"); ("givenName", VStr "Bob")]]));
           NetResp (json_response 200
                      (VDict [("data", VList [VDict [("id", VStr "p1");
                                                     ("createdBy", VStr "u-2")];
                                              VDict [("id", VStr "p2");
                                                     ("createdBy", VStr "u-1")];
                                              VStr "stray"])]))]
          [] [].

(** ** The wording of the specification, where the code departs from it *)

(** An envelope lacks the [data] field when it is not a mapping with that
    key. *)
Definition lacks_data (env : value) : Prop :=
  match env with
  | VDict d => lookup "data" d = None
  | _ => True
  end.

(** The integrity check as worded: one pass raises the data-integrity error
    on an envelope lacking [data], and does not raise on any other. *)
Definition integrity_check_as_worded : Prop :=
  forall (acc : list value) (env : value),
    (lacks_data env -> ProofAPI.collect_page acc env = Raise ProofAPI.no_data) /\
    (~ lacks_data env -> exists step, ProofAPI.collect_page acc env = Ok step).

(** Re-authentication as worded: [_get_headers] makes an authentication
    attempt exactly when the slot is [None]. *)
Definition reauth_as_worded : Prop :=
  forall (c : APIClient) (w : World),
    auth_attempts (sent (snd (APIClient._get_headers c w))) = S (auth_attempts (sent w))
    <-> access_token c = VNone.

(** The bearer value as worded: the token when the slot is set, the empty
    string when it is [None]. *)
Definition bearer_as_worded (token : value) : string :=
  match token with
  | VNone => ""
  | _ => py_str token
  end.

Definition headers_as_worded : Prop :=
  forall (c c' : APIClient) (w w' : World) (headers : list (string * string)),
    APIClient._get_headers c w = (Ok headers, c', w') ->
    headers = [("Authorization", "Bearer " +++ bearer_as_worded (access_token c'));
               ("Content-Type", "application/json")].


(* ================================================================= *)
(** ** Basic facts about the transport *)

Example py_str_none : py_str VNone = "None".
Proof. reflexivity. Qed.

Example py_str_nested :
  py_str (VDict [("a", VList [VInt 1; VStr "xy"; VBool true]); ("b", VNone)])
  = "{'a': [1, 'xy', True], 'b': None}".
Proof. reflexivity. Qed.

Example repr_str_quote :
  repr_str "it's" = String double_quote ("it's" +++ String double_quote "").
Proof. reflexivity. Qed.

Lemma requests_call_eq (rq : Request) (c : APIClient) (w : World) :
  requests_call rq c w =
  (match next_event w with NetResp r => Ok r | NetRaise e => Raise e end,
   c, after_call w rq).
Proof.
  unfold requests_call, next_event, after_call.
  destruct (net w) as [|[r|e] rest]; reflexivity.
Qed.

(** [_parse_json] and [_handle_response] never raise. *)
Lemma parse_json_total (r : Response) :
  exists v, APIClient._parse_json r = Ok v.
Proof.
  unfold APIClient._parse_json, response_json.
  destruct (contains _ _); [destruct (json r)|]; simpl; eauto.
Qed.

Lemma handle_response_total (r : Response) (raw : bool) :
  exists v, APIClient._handle_response r raw = Ok v.
Proof.
  unfold APIClient._handle_response, raise_for_status.
  destruct (_ && _); simpl; eauto.
  destruct raw; simpl; eauto.
  destruct (parse_json_total r) as [v ->]. simpl; eauto.
Qed.

Lemma authenticate_eq (c : APIClient) (w : World) :
  APIClient._authenticate c w =
  match token_after (next_event w) with
  | Ok token => (Ok tt, with_token c token, after_call w (auth_request c))
  | Raise e => (Raise e, c, after_call w (auth_request c))
  | OutOfFuel => (OutOfFuel, c, after_call w (auth_request c))
  end.
Proof.
  unfold APIClient._authenticate, try_except, bind.
  rewrite requests_call_eq. fold (auth_request c).
  destruct (next_event w) as [r|e]; simpl.
  - destruct (status_code r =? 200)%Z; [|reflexivity].
    unfold lift. destruct (parse_json_total r) as [body ->]. simpl.
    destruct (py_get body "access_token" VNone) as [token|e|] eqn:G; simpl.
    + reflexivity.
    + destruct body; simpl in G; try discriminate; inversion G; subst; reflexivity.
    + destruct body; discriminate.
  - destruct (is_RequestException e); reflexivity.
Qed.

Lemma get_headers_eq (c : APIClient) (w : World) :
  APIClient._get_headers c w =
  if truthy (access_token c) then (Ok (headers_of (access_token c)), c, w)
  else match token_after (next_event w) with
       | Ok token =>
           (Ok (headers_of token), with_token c token, after_call w (auth_request c))
       | Raise e => (Raise e, c, after_call w (auth_request c))
       | OutOfFuel => (OutOfFuel, c, after_call w (auth_request c))
       end.
Proof.
  unfold APIClient._get_headers, bind, get_access_token, ret.
  destruct (truthy (access_token c)); simpl; [reflexivity|].
  rewrite authenticate_eq.
  destruct (token_after (next_event w)); reflexivity.
Qed.

Lemma token_after_fuel (ev : NetEvent) : token_after ev <> OutOfFuel.
Proof.
  destruct ev as [r|e]; simpl.
  - destruct (status_code r =? 200)%Z; [|discriminate].
    destruct (parse_json_total r) as [body ->]. simpl.
    destruct body; discriminate.
  - destruct (is_RequestException e); discriminate.
Qed.

(** The dispatch that follows header construction, shared by the four
    verbs: the request is issued and the response normalised; an exception
    of the transport gives [None]. *)
Lemma dispatch_eq (rq : Request) (raw : bool) (c : APIClient) (w : World) :
  try_except
    (response <- requests_call rq ;; lift (APIClient._handle_response response raw))
    any_Exception (fun _ => ret VNone) c w =
  (match next_event w with
   | NetResp r => APIClient._handle_response r raw
   | NetRaise _ => Ok VNone
   end, c, after_call w rq).
Proof.
  unfold try_except, bind, lift, ret. rewrite requests_call_eq.
  destruct (next_event w) as [r|e]; simpl; [|reflexivity].
  destruct (handle_response_total r raw) as [v ->]. reflexivity.
Qed.

Lemma get_eq (base_url endpoint : string) (params : option (list (string * value)))
      (raw : bool) (c : APIClient) (w : World) :
  APIClient.get base_url endpoint params raw c w =
  match APIClient._get_headers c w with
  | (Ok headers, c1, w1) =>
      (match next_event w1 with
       | NetResp r => APIClient._handle_response r raw
       | NetRaise _ => Ok VNone
       end, c1,
       after_call w1 (mkRequest GET (base_url +++ endpoint) headers
                                (encode_params params) [] None []))
  | (Raise _, c1, w1) => (Ok VNone, c1, w1)
  | (OutOfFuel, c1, w1) => (OutOfFuel, c1, w1)
  end.
Proof.
  unfold APIClient.get.
  set (rq := fun headers => mkRequest GET (base_url +++ endpoint) headers
                                      (encode_params params) [] None []).
  pose proof (fun h => dispatch_eq (rq h) raw) as D.
  unfold try_except, bind in *.
  destruct (APIClient._get_headers c w) as [[[h|e|] c1] w1]; simpl; try reflexivity.
  apply D.
Qed.

(** [get], from its [try] on, never raises: it returns a value, [None] on
    any failure. *)
Lemma get_total (base_url endpoint : string) (params : option (list (string * value)))
      (raw : bool) (c : APIClient) (w : World) :
  exists v c' w', APIClient.get base_url endpoint params raw c w = (Ok v, c', w').
Proof.
  rewrite get_eq, get_headers_eq.
  destruct (truthy (access_token c)).
  - destruct (next_event w) as [r|e]; [|eauto].
    destruct (handle_response_total r raw) as [v ->]; eauto.
  - pose proof (token_after_fuel (next_event w)) as F.
    destruct (token_after (next_event w)) as [token|e|]; [|eauto|congruence].
    destruct (next_event (after_call w (auth_request c))) as [r|e]; [|eauto].
    destruct (handle_response_total r raw) as [v ->]; eauto.
Qed.

Lemma fetches_after_call (w : World) (rq : Request) :
  fetches (sent (after_call w rq)) = (fetches (sent w) + if is_get rq then 1 else 0)%nat.
Proof.
  unfold fetches, after_call; simpl.
  rewrite filter_app, length_app; simpl.
  destruct (is_get rq); reflexivity.
Qed.

(** A call of [get] that returns something other than [None] has issued
    exactly one GET request and consumed the outcome it met. *)
Lemma get_value (base_url endpoint : string) (params : option (list (string * value)))
      (raw : bool) (c c' : APIClient) (w w' : World) (v : value) :
  APIClient.get base_url endpoint params raw c w = (Ok v, c', w') ->
  v <> VNone ->
  (length (net w') < length (net w))%nat /\
  fetches (sent w') = S (fetches (sent w)).
Proof.
  rewrite get_eq, get_headers_eq. intros H Hv.
  assert (K : forall w1 rq,
             is_get rq = true ->
             (length (net w1) <= length (net w))%nat ->
             fetches (sent w1) = fetches (sent w) ->
             match next_event w1 with
             | NetResp r => APIClient._handle_response r raw
             | NetRaise _ => Ok VNone
             end = Ok v ->
             (length (net (after_call w1 rq)) < length (net w))%nat /\
             fetches (sent (after_call w1 rq)) = S (fetches (sent w))).
  { intros w1 rq G L F E. rewrite fetches_after_call, G, F. split; [|lia].
    unfold next_event in E. simpl.
    destruct (net w1) as [|ev rest]; [congruence|]. simpl in *. lia. }
  destruct (truthy (access_token c)).
  - inversion H; subst. apply K; auto.
  - destruct (token_after (next_event w)) as [token|e|]; inversion H; subst;
      try congruence.
    apply K; auto.
    + simpl. destruct (net w); simpl; lia.
    + rewrite fetches_after_call. simpl. lia.
Qed.

Lemma lookup_some_nonempty (k : string) (d : list (string * value)) (v : value) :
  lookup k d = Some v -> truthy (VDict d) = true.
Proof. destruct d; [discriminate|reflexivity]. Qed.

(** On a page whose [data] is a list, one pass appends the records and
    reads the continuation token. *)
Lemma collect_page_ok (acc : list value) (d : list (string * value)) (l : list value) :
  lookup "data" d = Some (VList l) ->
  ProofAPI.collect_page acc (VDict d) = Ok (acc ++ l, continuation d).
Proof.
  intros H. unfold ProofAPI.collect_page.
  rewrite (lookup_some_nonempty _ _ _ H). simpl.
  unfold has_key, continuation. rewrite H. reflexivity.
Qed.

Lemma records_of_page (d : list (string * value)) (l : list value) :
  lookup "data" d = Some (VList l) -> records d = l.
Proof. unfold records. intros ->. reflexivity. Qed.

Section Page_runs.

Context {mk : value -> list (string * value)}.

(** Each page of a run costs one outcome of the network and one GET. *)
Lemma page_run_cost {c c' : APIClient} {w w' : World} {token : value}
      {pages : list (list (string * value))} :
  page_run mk c w token pages c' w' ->
  (length pages + length (net w') <= length (net w))%nat /\
  fetches (sent w') = (fetches (sent w) + length pages)%nat.
Proof.
  induction 1 as [c w token d l c' w' G D T
                 |c w token d l pages c1 w1 c' w' G D T R IH].
  - apply get_value in G; [|discriminate]. simpl. lia.
  - apply get_value in G; [|discriminate]. simpl. lia.
Qed.

End Page_runs.

(** The loop of [get_proof_metadata_collection] along a run of pages. *)
Lemma collection_loop_run {limit sort_by sort_direction object_type object_id : value}
      {c c' : APIClient} {w w' : World} {token : value}
      {pages : list (list (string * value))} :
  page_run (ProofAPI.page_params limit sort_by sort_direction object_type object_id)
           c w token pages c' w' ->
  forall (fuel : nat) (acc : list value),
    (length pages <= fuel)%nat ->
    ProofAPI.collection_loop fuel limit sort_by sort_direction object_type object_id
                             acc token c w
    = (Ok (acc ++ flat_map records pages), c', w').
Proof.
  induction 1 as [c w token d l c' w' G D T
                 |c w token d l pages c1 w1 c' w' G D T R IH];
    intros fuel acc Hf; (destruct fuel as [|fuel]; [simpl in Hf; lia|]).
  - simpl. unfold bind at 1. rewrite G.
    unfold bind, lift. rewrite (collect_page_ok _ _ _ D). simpl.
    rewrite T, (records_of_page _ _ D), app_nil_r. reflexivity.
  - simpl. unfold bind at 1. rewrite G.
    unfold bind at 1. unfold lift. rewrite (collect_page_ok _ _ _ D). simpl.
    rewrite T. simpl. rewrite IH by (simpl in Hf; lia).
    rewrite (records_of_page _ _ D), app_assoc. reflexivity.
Qed.

Ltac break_match :=
  match goal with
  | |- context [match ?x with _ => _ end] => destruct x eqn:?
  end.

Lemma py_extend_fuel (acc : list value) (v : value) : py_extend acc v <> OutOfFuel.
Proof. destruct v; discriminate. Qed.

Lemma collect_page_fuel (acc : list value) (v : value) :
  ProofAPI.collect_page acc v <> OutOfFuel.
Proof.
  unfold ProofAPI.collect_page.
  destruct v as [| | | |l|d]; simpl; repeat (break_match; simpl); try discriminate;
    destruct (py_extend acc _) eqn:E; simpl; try discriminate;
    apply py_extend_fuel in E; contradiction.
Qed.

(** The loop never exhausts a bound that exceeds the number of outcomes the
    network still holds. *)
Lemma collection_loop_fuel (limit sort_by sort_direction object_type object_id : value)
      (fuel : nat) :
  forall (acc : list value) (token : value) (c : APIClient) (w : World),
    (length (net w) < fuel)%nat ->
    fst (fst (ProofAPI.collection_loop fuel limit sort_by sort_direction
                object_type object_id acc token c w)) <> OutOfFuel.
Proof.
  induction fuel as [|fuel IH]; intros acc token c w Hf; [lia|].
  simpl. unfold bind at 1.
  destruct (get_total ProofAPI.BASE_URL "/"
              (Some (ProofAPI.page_params limit sort_by sort_direction
                       object_type object_id token)) false c w)
    as (v & c1 & w1 & G).
  rewrite G. unfold bind at 1. unfold lift.
  destruct (ProofAPI.collect_page acc v) as [[acc' next]|e|] eqn:P; simpl;
    try discriminate.
  - destruct (truthy next); simpl; [|discriminate].
    apply IH.
    assert (v <> VNone) by (intros ->; discriminate).
    apply get_value in G; auto. lia.
  - apply collect_page_fuel in P. contradiction.
Qed.

(** [get_proof_metadata_collection] always comes to an end: it returns or
    raises. *)
Lemma get_proof_metadata_collection_total
      (limit sort_by sort_direction object_type object_id : value) (raw : bool)
      (c : APIClient) (w : World) :
  fst (fst (ProofAPI.get_proof_metadata_collection limit sort_by sort_direction
              object_type object_id raw c w)) <> OutOfFuel.
Proof.
  unfold ProofAPI.get_proof_metadata_collection, bind.
  pose proof (collection_loop_fuel limit sort_by sort_direction object_type object_id
                (S (length (net w))) [] VNone c w (Nat.lt_succ_diag_r _)) as F.
  destruct (ProofAPI.collection_loop _ _ _ _ _ _ _ _ c w) as [[[l|e|] c1] w1];
    simpl in *; try discriminate; try congruence.
  destruct raw; discriminate.
Qed.

(* ================================================================= *)
(** ** Pagination *)

(** C2. Whenever the successive page fetches of
    [get_proof_metadata_collection] return the pages P1..Pn (n >= 1), each of
    the first n-1 with a non-empty continuation token and the last with the
    continuation field missing or empty, the call returns the records of P1
    followed by those of P2, ..., of Pn, in the order the server gave them,
    and has issued exactly n GET requests, ending in the state the n-th fetch
    left. *)
Theorem pagination_concatenates_pages
        {limit sort_by sort_direction object_type object_id : value} (raw : bool)
        {c c' : APIClient} {w w' : World} {pages : list (list (string * value))} :
  page_run (ProofAPI.page_params limit sort_by sort_direction object_type object_id)
           c w VNone pages c' w' ->
  ProofAPI.get_proof_metadata_collection limit sort_by sort_direction
    object_type object_id raw c w
  = (Ok (VList (flat_map records pages)), c', w')
  /\ fetches (sent w') = (fetches (sent w) + length pages)%nat.
Proof.
  intros R. split.
  - unfold ProofAPI.get_proof_metadata_collection, bind.
    rewrite (collection_loop_run R).
    + destruct raw; reflexivity.
    + apply page_run_cost in R. lia.
  - apply (page_run_cost R).
Qed.

Lemma pagination_concatenates_pages_witness :
  page_run (ProofAPI.page_params (VInt 500) (VStr "uploadedOn") (VStr "desc") VNone VNone)
           sample_client two_pages VNone [page1; page2]
           sample_client
           (snd (ProofAPI.get_proof_metadata_collection (VInt 500) (VStr "uploadedOn")
                   (VStr "desc") VNone VNone false sample_client two_pages))
  /\ fst (fst (ProofAPI.get_proof_metadata_collection (VInt 500) (VStr "uploadedOn")
                 (VStr "desc") VNone VNone false sample_client two_pages))
     = Ok (VList [VDict [("id", VStr "p1")]; VDict [("id", VStr "p2")];
                  VDict [("id", VStr "p3")]])
  /\ fetches (sent (snd (ProofAPI.get_proof_metadata_collection (VInt 500)
                           (VStr "uploadedOn") (VStr "desc") VNone VNone false
                           sample_client two_pages))) = 2%nat.
Proof.
  assert (R : page_run
                (ProofAPI.page_params (VInt 500) (VStr "uploadedOn") (VStr "desc")
                                      VNone VNone)
                sample_client two_pages VNone [page1; page2] sample_client
                (snd (ProofAPI.get_proof_metadata_collection (VInt 500)
                        (VStr "uploadedOn") (VStr "desc") VNone VNone false
                        sample_client two_pages))).
  { eapply run_more; [vm_compute; reflexivity|reflexivity|reflexivity|].
    eapply run_last; [vm_compute; reflexivity|reflexivity|reflexivity]. }
  split; [exact R|].
  destruct (pagination_concatenates_pages false R) as [E F].
  split; [rewrite E; reflexivity|].
  rewrite F. reflexivity.
Defined.

(** C3, as worded, fails.  A page whose [data] field is present but holds
    [null] makes the pass raise [TypeError].  And envelopes without a [data]
    field do not all meet the data-integrity error: a JSON [true] raises
    [TypeError] in the membership test, and the JSON list [["data"]] passes
    the test and raises [AttributeError] at [response.get]. *)
Lemma integrity_check_counterexample :
  fst (fst (ProofAPI.get_proof_metadata_collection (VInt 500) (VStr "uploadedOn")
              (VStr "desc") VNone VNone false sample_client null_data_world))
  = Raise TypeError
  /\ ProofAPI.collect_page [] (VBool true) = Raise TypeError
  /\ ProofAPI.collect_page [] (VList [VStr "data"]) = Raise AttributeError
  /\ ~ integrity_check_as_worded.
Proof.
  split; [reflexivity|]. split; [reflexivity|]. split; [reflexivity|].
  intros H. destruct (H [] (VDict [("data", VNone)])) as [_ K].
  destruct K as [step K]; [simpl; discriminate|]. discriminate.
Qed.

(** C3, amended. At every pass of the loop of
    [get_proof_metadata_collection]: if the fetched envelope is [None], or a
    mapping without the [data] key (the empty mapping of a malformed body
    included), the loop raises the data-integrity error at once, in the
    state the fetch left, so no further request is made; if it is a mapping
    whose [data] is a list, the pass does not raise: it ends the loop with the
    accumulated records or goes on to the next fetch. *)
Theorem integrity_check_terminal
        (limit sort_by sort_direction object_type object_id : value)
        (fuel : nat) (acc : list value) (token env : value)
        (c c1 : APIClient) (w w1 : World) :
  APIClient.get ProofAPI.BASE_URL "/"
    (Some (ProofAPI.page_params limit sort_by sort_direction object_type object_id token))
    false c w = (Ok env, c1, w1) ->
  (env = VNone \/ (exists d, env = VDict d /\ lookup "data" d = None) ->
   ProofAPI.collection_loop (S fuel) limit sort_by sort_direction object_type object_id
                            acc token c w
   = (Raise ProofAPI.no_data, c1, w1))
  /\
  (forall d l, env = VDict d -> lookup "data" d = Some (VList l) ->
   ProofAPI.collection_loop (S fuel) limit sort_by sort_direction object_type object_id
                            acc token c w
   = if truthy (continuation d)
     then ProofAPI.collection_loop fuel limit sort_by sort_direction object_type object_id
                                   (acc ++ l) (continuation d) c1 w1
     else (Ok (acc ++ l), c1, w1)).
Proof.
  intros G. split.
  - intros E. simpl. unfold bind at 1. rewrite G. unfold bind, lift.
    destruct E as [->|(d & -> & D)]; [reflexivity|].
    unfold ProofAPI.collect_page. simpl.
    destruct d as [|kv d']; [reflexivity|]. simpl.
    unfold has_key. rewrite D. reflexivity.
  - intros d l -> D. simpl. unfold bind at 1. rewrite G.
    unfold bind at 1. unfold lift. rewrite (collect_page_ok acc d l D). simpl.
    destruct (truthy (continuation d)); reflexivity.
Qed.

Lemma integrity_check_terminal_witness :
  APIClient.get ProofAPI.BASE_URL "/"
    (Some (ProofAPI.page_params (VInt 500) (VStr "uploadedOn") (VStr "desc")
                                VNone VNone VNone))
    false sample_client not_found_world
  = (Ok VNone, sample_client,
     snd (APIClient.get ProofAPI.BASE_URL "/"
            (Some (ProofAPI.page_params (VInt 500) (VStr "uploadedOn") (VStr "desc")
                                        VNone VNone VNone))
            false sample_client not_found_world))
  /\ fst (fst (ProofAPI.collection_loop 1 (VInt 500) (VStr "uploadedOn") (VStr "desc")
                 VNone VNone [] VNone sample_client not_found_world))
     = Raise ProofAPI.no_data.
Proof.
  assert (G : APIClient.get ProofAPI.BASE_URL "/"
                (Some (ProofAPI.page_params (VInt 500) (VStr "uploadedOn") (VStr "desc")
                                            VNone VNone VNone))
                false sample_client not_found_world
              = (Ok VNone, sample_client,
                 snd (APIClient.get ProofAPI.BASE_URL "/"
                        (Some (ProofAPI.page_params (VInt 500) (VStr "uploadedOn")
                                 (VStr "desc") VNone VNone VNone))
                        false sample_client not_found_world)))
    by (vm_compute; reflexivity).
  split; [exact G|].
  destruct (integrity_check_terminal _ _ _ _ _ 0 [] _ _ _ _ _ _ G) as [A _].
  rewrite A; [reflexivity|]. left; reflexivity.
Defined.

(* ================================================================= *)
(** ** Token management *)

Lemma auth_attempts_after_auth (c : APIClient) (w : World) :
  auth_attempts (sent (after_call w (auth_request c))) = S (auth_attempts (sent w)).
Proof.
  unfold auth_attempts, after_call; simpl.
  rewrite filter_app, length_app. simpl. lia.
Qed.

Lemma auth_failure_token (ev : NetEvent) :
  auth_failure ev = true -> token_after ev = Ok VNone.
Proof.
  destruct ev as [r|e]; simpl.
  - destruct (status_code r =? 200)%Z; [discriminate|reflexivity].
  - intros ->. reflexivity.
Qed.

(** C4, as worded, fails: with the empty string in the slot, which is not
    [None], [_get_headers] makes an authentication attempt. *)
Lemma reauth_counterexample :
  access_token empty_token_client <> VNone
  /\ auth_attempts (sent (snd (APIClient._get_headers empty_token_client unauthorized_world)))
     = S (auth_attempts (sent unauthorized_world))
  /\ ~ reauth_as_worded.
Proof.
  split; [discriminate|]. split; [reflexivity|].
  intros H. destruct (H empty_token_client unauthorized_world) as [K _].
  specialize (K eq_refl). discriminate.
Qed.

(** C4, amended. [_get_headers] makes an authentication attempt if and only
    if the slot, at the time of the call, is [None] or holds an empty value
    (anything Python counts as false), and then makes exactly one, before the
    headers are built; when a non-empty token is in the slot, header
    construction makes no request at all and leaves client and world as they
    were. *)
Theorem get_headers_reauth (c : APIClient) (w : World) :
  auth_attempts (sent (snd (APIClient._get_headers c w)))
  = (auth_attempts (sent w) + if truthy (access_token c) then 0 else 1)%nat
  /\ (truthy (access_token c) = true ->
      APIClient._get_headers c w = (Ok (headers_of (access_token c)), c, w))
  /\ (truthy (access_token c) = false ->
      sent (snd (APIClient._get_headers c w)) = sent w ++ [auth_request c]).
Proof.
  rewrite get_headers_eq.
  destruct (truthy (access_token c)); simpl.
  - repeat split; try lia; try reflexivity; try discriminate.
  - assert (E : snd (match token_after (next_event w) with
                     | Ok token => (Ok (headers_of token), with_token c token,
                                    after_call w (auth_request c))
                     | Raise e => (Raise e, c, after_call w (auth_request c))
                     | OutOfFuel => (OutOfFuel, c, after_call w (auth_request c))
                     end) = after_call w (auth_request c))
      by (destruct (token_after (next_event w)); reflexivity).
    rewrite E, auth_attempts_after_auth.
    repeat split; try lia; try discriminate.
Qed.

Lemma get_headers_reauth_witness :
  truthy (access_token sample_client) = true
  /\ APIClient._get_headers sample_client two_pages
     = (Ok [("Authorization", "Bearer tok123"); ("Content-Type", "application/json")],
        sample_client, two_pages)
  /\ truthy (access_token fresh_client) = false
  /\ sent (snd (APIClient._get_headers fresh_client unauthorized_world))
     = [auth_request fresh_client].
Proof.
  destruct (get_headers_reauth sample_client two_pages) as (_ & A & _).
  destruct (get_headers_reauth fresh_client unauthorized_world) as (_ & _ & B).
  split; [reflexivity|]. split; [exact (A eq_refl)|].
  split; [reflexivity|]. exact (B eq_refl).
Defined.

(** C5. When the token endpoint answers with a status other than 200, or the
    transport fails with a connection error, a timeout or another exception
    of the [requests] family, [_authenticate] returns normally and leaves
    [None] in the token slot. *)
Theorem authenticate_failure_is_silent (c : APIClient) (w : World) :
  (exists r, next_event w = NetResp r /\ status_code r <> 200%Z)
  \/ (exists e, next_event w = NetRaise e
                /\ (e = ConnectionError \/ e = Timeout \/ e = RequestException
                    \/ e = HTTPError)) ->
  APIClient._authenticate c w
  = (Ok tt, mkClient (client_id c) (client_secret c) VNone,
     after_call w (auth_request c)).
Proof.
  intros H. rewrite authenticate_eq.
  assert (F : auth_failure (next_event w) = true).
  { destruct H as [(r & -> & S)|(e & -> & E)]; simpl.
    - apply negb_true_iff, Z.eqb_neq, S.
    - destruct E as [->|[->|[->| ->]]]; reflexivity. }
  rewrite (auth_failure_token _ F). reflexivity.
Qed.

Lemma authenticate_failure_is_silent_witness :
  ((exists r, next_event unauthorized_world = NetResp r /\ status_code r <> 200%Z)
   \/ (exists e, next_event unauthorized_world = NetRaise e
                 /\ (e = ConnectionError \/ e = Timeout \/ e = RequestException
                     \/ e = HTTPError)))
  /\ fst (APIClient._authenticate sample_client unauthorized_world)
     = (Ok tt, mkClient (VStr "id") (VStr "secret") VNone).
Proof.
  assert (H : (exists r, next_event unauthorized_world = NetResp r
                         /\ status_code r <> 200%Z)
              \/ (exists e, next_event unauthorized_world = NetRaise e
                            /\ (e = ConnectionError \/ e = Timeout
                                \/ e = RequestException \/ e = HTTPError))).
  { left. eexists. split; [reflexivity|]. simpl. discriminate. }
  split; [exact H|].
  rewrite (authenticate_failure_is_silent sample_client unauthorized_world H).
  reflexivity.
Defined.

(** C6, as worded, fails: when the slot is [None] and re-authentication
    fails, the Authorization entry is the text [Bearer None], not [Bearer]
    followed by the empty string. *)
Lemma bearer_counterexample :
  APIClient._get_headers fresh_client unauthorized_world
  = (Ok [("Authorization", "Bearer None"); ("Content-Type", "application/json")],
     fresh_client, after_call unauthorized_world (auth_request fresh_client))
  /\ ~ headers_as_worded.
Proof.
  split; [reflexivity|].
  intros H.
  specialize (H fresh_client fresh_client unauthorized_world _ _ eq_refl).
  discriminate.
Qed.

(** C6, amended. Whenever [_get_headers] returns, the mapping it returns has
    Content-Type [application/json] and Authorization [Bearer] followed by
    [str] of the slot as it stands after the re-authentication, if any: the
    token itself when a non-empty token is in the slot, and the text [None]
    when re-authentication failed and left the slot [None]. *)
Theorem get_headers_bearer (c c' : APIClient) (w w' : World)
        (r : result (list (string * string))) :
  APIClient._get_headers c w = (r, c', w') ->
  (forall headers, r = Ok headers ->
     headers = [("Authorization", "Bearer " +++ py_str (access_token c'));
                ("Content-Type", "application/json")])
  /\ (forall t, access_token c = VStr t -> t <> "" ->
        r = Ok [("Authorization", "Bearer " +++ t); ("Content-Type", "application/json")])
  /\ (truthy (access_token c) = false -> auth_failure (next_event w) = true ->
        r = Ok [("Authorization", "Bearer None"); ("Content-Type", "application/json")]
        /\ access_token c' = VNone).
Proof.
  rewrite get_headers_eq. intros H. split; [|split].
  - intros headers ->.
    destruct (truthy (access_token c)).
    + inversion H; subst. reflexivity.
    + destruct (token_after (next_event w)); inversion H; subst. reflexivity.
  - intros t T N. rewrite T in H. simpl in H.
    apply String.eqb_neq in N. rewrite N in H. simpl in H.
    inversion H; subst. reflexivity.
  - intros T F. rewrite T, (auth_failure_token _ F) in H.
    inversion H; subst. split; reflexivity.
Qed.

Lemma get_headers_bearer_witness :
  APIClient._get_headers fresh_client unauthorized_world
  = (Ok [("Authorization", "Bearer None"); ("Content-Type", "application/json")],
     fresh_client, after_call unauthorized_world (auth_request fresh_client))
  /\ truthy (access_token fresh_client) = false
  /\ auth_failure (next_event unauthorized_world) = true
  /\ access_token fresh_client = VNone.
Proof.
  assert (G : APIClient._get_headers fresh_client unauthorized_world
              = (Ok [("Authorization", "Bearer None");
                     ("Content-Type", "application/json")],
                 fresh_client, after_call unauthorized_world (auth_request fresh_client)))
    by reflexivity.
  destruct (get_headers_bearer _ _ _ _ _ G) as (_ & _ & K).
  destruct (K eq_refl eq_refl) as [_ T].
  split; [exact G|]. split; [reflexivity|]. split; [reflexivity|exact T].
Defined.

(* ================================================================= *)
(** ** Dispatch *)


Lemma encode_param_scalar (k : string) (v : value) :
  is_scalar v = true -> encode_param (k, v) = [(k, py_str v)].
Proof. destruct v; try discriminate; reflexivity. Qed.

Lemma encode_param_key (kv : string * value) (p : string * string) :
  In p (encode_param kv) -> fst p = fst kv.
Proof.
  unfold encode_param. rewrite in_flat_map.
  intros (v & _ & H). apply in_map_iff in H. destruct H as (s & <- & _). reflexivity.
Qed.

(** A key of the encoded query comes from an entry whose encoding is not
    empty. *)
Lemma encode_params_key (d : list (string * value)) (k : string) :
  In k (map fst (encode_params (Some d))) ->
  exists v, In (k, v) d /\ encode_param (k, v) <> [].
Proof.
  simpl. rewrite in_map_iff. intros (p & <- & H).
  apply in_flat_map in H. destruct H as ([k' v] & I & P).
  pose proof (encode_param_key _ _ P) as E. simpl in E. subst k'.
  exists v. split; [assumption|]. intros Z. rewrite Z in P. contradiction.
Qed.






(** C8. A response with status 200 whose Content-Type contains
    [application/json] and whose body does not parse is normalised, with the
    raw flag off, to the empty mapping; a response with a 4xx or 5xx status
    is normalised to [None], whatever the raw flag; and the two results
    differ. *)
Theorem malformed_json_is_empty_not_absent :
  (forall r ct,
     status_code r = 200%Z -> content_type r = Some ct ->
     contains "application/json" ct = true -> json r = None ->
     APIClient._handle_response r false = Ok (VDict []))
  /\ (forall r raw,
        (400 <= status_code r < 600)%Z ->
        APIClient._handle_response r raw = Ok VNone)
  /\ VDict [] <> VNone.
Proof.
  split; [|split].
  - intros r ct S C J P.
    unfold APIClient._handle_response, raise_for_status, APIClient._parse_json,
      response_json.
    rewrite S, C, J, P. reflexivity.
  - intros r raw [L U].
    unfold APIClient._handle_response, raise_for_status.
    apply Z.leb_le in L. apply Z.ltb_lt in U. rewrite L, U. reflexivity.
  - discriminate.
Qed.

Lemma malformed_json_is_empty_not_absent_witness :
  APIClient._handle_response malformed_response false = Ok (VDict [])
  /\ APIClient._handle_response not_found_response false = Ok VNone.
Proof.
  destruct malformed_json_is_empty_not_absent as (A & B & _).
  split.
  - apply (A malformed_response "application/json; charset=utf-8"); reflexivity.
  - apply (B not_found_response false). simpl. lia.
Defined.

(** The requests one call of [post] with files adds to the log. *)
Lemma post_files_log (base_url endpoint : string) (data : value)
      (files : option (list (string * string))) (raw : bool)
      (c : APIClient) (w : World) :
  APIClient.files_truthy files = true ->
  exists new,
    sent (snd (APIClient.post base_url endpoint data files raw c w)) = sent w ++ new
    /\ (truthy (access_token c) = true ->
        new = [mkRequest POST (base_url +++ endpoint) (headers_of (access_token c))
                         [] [] None (APIClient.file_parts files)])
    /\ (forall rq, In rq new ->
        rq = auth_request c
        \/ exists headers,
             rq = mkRequest POST (base_url +++ endpoint) headers [] [] None
                            (APIClient.file_parts files)).
Proof.
  intros F. unfold APIClient.post. rewrite F.
  unfold try_except, bind. rewrite get_headers_eq.
  assert (D : forall c1 w1 rq,
             sent (snd (match
                          match requests_call rq c1 w1 with
                          | (Ok a, c', w') => lift (APIClient._handle_response a raw) c' w'
                          | (Raise e, c', w') => (Raise e, c', w')
                          | (OutOfFuel, c', w') => (OutOfFuel, c', w')
                          end
                        with
                        | (Raise e, c', w') =>
                            if any_Exception e then ret VNone c' w' else (Raise e, c', w')
                        | r => r
                        end)) = sent w1 ++ [rq]).
  { intros c1 w1 rq. rewrite requests_call_eq.
    destruct (next_event w1) as [r|e]; simpl; [|reflexivity].
    unfold lift. destruct (handle_response_total r raw) as [v ->]. reflexivity. }
  destruct (truthy (access_token c)).
  - eexists. split; [apply D|]. split; [reflexivity|].
    intros rq [<-|[]]. right. eexists. reflexivity.
  - destruct (token_after (next_event w)) as [token|e|]; simpl.
    + eexists. split; [rewrite D; simpl; rewrite <- app_assoc; reflexivity|].
      split; [discriminate|].
      intros rq [<-|[<-|[]]]; [left; reflexivity|right; eexists; reflexivity].
    + exists [auth_request c]. split; [reflexivity|]. split; [discriminate|].
      intros rq [<-|[]]. left; reflexivity.
    + exists [auth_request c]. split; [reflexivity|]. split; [discriminate|].
      intros rq [<-|[]]. left; reflexivity.
Qed.

(** The authentication request carries the three fields of the grant and
    nothing else. *)
Lemma auth_request_fields (c : APIClient) (k : string) :
  In k (field_names (auth_request c)) ->
  k = "grant_type" \/ k = "client_id" \/ k = "client_secret".
Proof.
  unfold field_names, auth_request. cbn [rq_query rq_form rq_json rq_files map app].
  rewrite app_nil_r. intros H. apply encode_params_key in H.
  destruct H as (v & I & _). simpl in I.
  destruct I as [E|[E|[E|[]]]]; inversion E; auto.
Qed.

(** C9. When [post] is given a files payload, every request it issues goes
    without a JSON body, whatever [data] holds, and its upload request
    carries the multipart parts and nothing else; with a token in the slot
    that upload is the one request issued.  In particular no request issued
    by [add_proof] carries a field [objectId] or [objectType], whatever
    [object_id] and [object_type] are. *)
Theorem post_files_excludes_json :
  (forall base_url endpoint data files raw c w,
     APIClient.files_truthy files = true ->
     exists new,
       sent (snd (APIClient.post base_url endpoint data files raw c w)) = sent w ++ new
       /\ (truthy (access_token c) = true ->
           exists rq, new = [rq] /\ rq_files rq = APIClient.file_parts files)
       /\ (forall rq, In rq new ->
           rq_json rq = None
           /\ (rq = auth_request c
               \/ (rq_files rq = APIClient.file_parts files
                   /\ rq_query rq = [] /\ rq_form rq = []))))
  /\ (forall file_path object_id object_type raw c w,
        exists new,
          sent (snd (ProofAPI.add_proof file_path object_id object_type raw c w))
          = sent w ++ new
          /\ (forall rq, In rq new ->
              rq_json rq = None
              /\ ~ In "objectId" (field_names rq)
              /\ ~ In "objectType" (field_names rq))).
Proof.
  split.
  - intros base_url endpoint data files raw c w F.
    destruct (post_files_log base_url endpoint data files raw c w F) as (new & S & T & Q).
    exists new. split; [exact S|]. split.
    + intros H. rewrite (T H). eexists. split; reflexivity.
    + intros rq I. destruct (Q rq I) as [->|(h & ->)].
      * split; [reflexivity|left; reflexivity].
      * split; [reflexivity|right; repeat split].
  - intros file_path object_id object_type raw c w.
    unfold ProofAPI.add_proof, bind, open_rb.
    destruct (find _ (disk w)) as [f|].
    + set (data := VDict _).
      destruct (post_files_log ProofAPI.BASE_URL "/" data (Some [("file", snd f)]) raw c w
                  eq_refl) as (new & S & _ & Q).
      exists new. split; [exact S|].
      intros rq I. destruct (Q rq I) as [->|(h & ->)].
      * split; [reflexivity|].
        split; intros K; apply auth_request_fields in K;
          destruct K as [K|[K|K]]; discriminate.
      * split; [reflexivity|].
        split; simpl; intros [K|[]]; discriminate.
    + exists []. split; [simpl; rewrite app_nil_r; reflexivity|].
      intros rq [].
Qed.

Lemma post_files_excludes_json_witness :
  APIClient.files_truthy (Some [("file", "%PDF-1.7")]) = true
  /\ sent (snd (ProofAPI.add_proof "evidence.pdf" (VStr "c-42") (VStr "control") false
                  sample_client upload_world))
     = [mkRequest POST "https://api.hyperproof.app/v1/proof/"
          [("Authorization", "Bearer tok123"); ("Content-Type", "application/json")]
          [] [] None [("file", "%PDF-1.7")]]
  /\ exists new,
       sent (snd (APIClient.post ProofAPI.BASE_URL "/"
                    (VDict [("objectId", VStr "c-42"); ("objectType", VStr "control")])
                    (Some [("file", "%PDF-1.7")]) false sample_client upload_world))
       = sent upload_world ++ new
       /\ forall rq, In rq new -> rq_json rq = None.
Proof.
  split; [reflexivity|]. split; [reflexivity|].
  destruct post_files_excludes_json as [A _].
  destruct (A ProofAPI.BASE_URL "/"
              (VDict [("objectId", VStr "c-42"); ("objectType", VStr "control")])
              (Some [("file", "%PDF-1.7")]) false sample_client upload_world eq_refl)
    as (new & S & _ & Q).
  exists new. split; [exact S|].
  intros rq I. apply (Q rq I).
Defined.

(** C1. [APIClient] has no [delete]: the attribute lookup in
    [delete_task_comment] raises [AttributeError] on every call, before any
    request is made. *)
Theorem delete_task_comment_raises (task_id comment_id : value) (raw : bool)
        (c : APIClient) (w : World) :
  TasksAPI.delete_task_comment task_id comment_id raw c w = (Raise AttributeError, c, w)
  /\ ~ In "delete" APIClient.attributes.
Proof.
  split; [reflexivity|].
  simpl. intuition discriminate.
Qed.

(* ================================================================= *)
(** ** Proof of a label *)

Lemma collect_label_page_ok (label_name : string) (acc : list value)
      (d : list (string * value)) (l : list value) :
  lookup "data" d = Some (VList l) ->
  ProofAPI.collect_label_page label_name acc (VDict d) = Ok (acc ++ l, continuation d).
Proof.
  intros H. unfold ProofAPI.collect_label_page. simpl.
  unfold has_key, continuation. rewrite H. reflexivity.
Qed.

(** The loop of [get_proof_by_label] along a run of pages: it leaves with
    all the records and with the envelope of the last page. *)
Lemma label_loop_run {label_name : string} {limit sort_by sort_direction label_id : value}
      {c c' : APIClient} {w w' : World} {token : value}
      {pages : list (list (string * value))} :
  page_run (ProofAPI.page_params limit sort_by sort_direction (VStr "label") label_id)
           c w token pages c' w' ->
  forall (fuel : nat) (acc : list value),
    (length pages <= fuel)%nat ->
    ProofAPI.label_loop fuel label_name limit sort_by sort_direction label_id acc token c w
    = (Ok (acc ++ flat_map records pages, VDict (last pages [])), c', w').
Proof.
  induction 1 as [c w token d l c' w' G D T
                 |c w token d l pages c1 w1 c' w' G D T R IH];
    intros fuel acc Hf; (destruct fuel as [|fuel]; [simpl in Hf; lia|]).
  - simpl. unfold bind at 1. rewrite G.
    unfold bind, lift. rewrite (collect_label_page_ok _ _ _ _ D). simpl.
    rewrite T, (records_of_page _ _ D), app_nil_r. reflexivity.
  - simpl ProofAPI.label_loop. unfold bind at 1. rewrite G.
    unfold bind at 1. unfold lift. rewrite (collect_label_page_ok _ _ _ _ D).
    cbn [fst snd]. rewrite T. cbn [negb].
    rewrite IH by (simpl in Hf; lia).
    cbn [flat_map]. rewrite (records_of_page _ _ D), app_assoc.
    destruct pages as [|p ps]; [inversion R|reflexivity].
Qed.

(** C10. On a successful run of [get_proof_by_label] whose pagination spans
    the pages P1..Pn: with [raw=False] the call returns the records of all n
    pages, concatenated; with [raw=True] it returns the envelope of Pn, the
    last page fetched, and not the accumulated records. *)
Theorem get_proof_by_label_raw_returns_last_page
        (re_search : string -> string -> result bool) (label_name : string)
        (limit sort_by sort_direction label_id : value)
        (c c1 c' : APIClient) (w w1 w' : World) (pages : list (list (string * value))) :
  ProofAPI.find_label_id re_search label_name c w = (Ok label_id, c1, w1) ->
  page_run (ProofAPI.page_params limit sort_by sort_direction (VStr "label") label_id)
           c1 w1 VNone pages c' w' ->
  ProofAPI.get_proof_by_label re_search label_name limit sort_by sort_direction false c w
  = (Ok (VList (flat_map records pages)), c', w')
  /\ ProofAPI.get_proof_by_label re_search label_name limit sort_by sort_direction true c w
     = (Ok (VDict (last pages [])), c', w').
Proof.
  intros L R.
  assert (F : (length pages <= S (length (net w1)))%nat)
    by (apply page_run_cost in R; lia).
  unfold ProofAPI.get_proof_by_label.
  split; unfold bind at 1; rewrite L; unfold bind;
    rewrite (label_loop_run R _ _ F); reflexivity.
Qed.

Lemma get_proof_by_label_raw_returns_last_page_witness :
  fst (ProofAPI.find_label_id substring_search "SOC2" sample_client label_world)
  = (Ok (VStr "L1"), sample_client)
  /\ fst (ProofAPI.get_proof_by_label substring_search "SOC2" (VInt 500)
            (VStr "uploadedOn") (VStr "desc") false sample_client label_world)
     = (Ok (VList [VDict [("id", VStr "p1")]; VDict [("id", VStr "p2")];
                   VDict [("id", VStr "p3")]]), sample_client)
  /\ fst (ProofAPI.get_proof_by_label substring_search "SOC2" (VInt 500)
            (VStr "uploadedOn") (VStr "desc") true sample_client label_world)
     = (Ok (VDict page2), sample_client).
Proof.
  set (w1 := snd (ProofAPI.find_label_id substring_search "SOC2" sample_client label_world)).
  set (w2 := snd (ProofAPI.get_proof_by_label substring_search "SOC2" (VInt 500)
                    (VStr "uploadedOn") (VStr "desc") false sample_client label_world)).
  assert (L : ProofAPI.find_label_id substring_search "SOC2" sample_client label_world
              = (Ok (VStr "L1"), sample_client, w1)) by (vm_compute; reflexivity).
  assert (R : page_run
                (ProofAPI.page_params (VInt 500) (VStr "uploadedOn") (VStr "desc")
                                      (VStr "label") (VStr "L1"))
                sample_client w1 VNone [page1; page2] sample_client w2).
  { eapply run_more; [vm_compute; reflexivity|reflexivity|reflexivity|].
    eapply run_last; [vm_compute; reflexivity|reflexivity|reflexivity]. }
  destruct (get_proof_by_label_raw_returns_last_page _ _ _ _ _ _ _ _ _ _ _ _ _ L R)
    as [A B].
  split; [rewrite L; reflexivity|].
  split; [rewrite A; reflexivity|rewrite B; reflexivity].
Defined.

(* ================================================================= *)
(** ** The four verbs *)

(** A verb that builds its headers, issues one request and normalises the
    response, all inside [try ... except Exception]. *)
Lemma verb_eq (mk : list (string * string) -> Request) (raw : bool)
      (c : APIClient) (w : World) :
  try_except
    (headers <- APIClient._get_headers ;;
     response <- requests_call (mk headers) ;;
     lift (APIClient._handle_response response raw))
    any_Exception (fun _ => ret VNone) c w =
  match APIClient._get_headers c w with
  | (Ok headers, c1, w1) => (outcome_value (next_event w1) raw, c1, after_call w1 (mk headers))
  | (Raise _, c1, w1) => (Ok VNone, c1, w1)
  | (OutOfFuel, c1, w1) => (OutOfFuel, c1, w1)
  end.
Proof.
  pose proof (fun h => dispatch_eq (mk h) raw) as D.
  unfold try_except, bind in *.
  destruct (APIClient._get_headers c w) as [[[h|e|] c1] w1]; simpl; try reflexivity.
  apply D.
Qed.

Lemma put_eq (base_url endpoint : string) (data : value) (raw : bool)
      (c : APIClient) (w : World) :
  APIClient.put base_url endpoint data raw c w =
  match APIClient._get_headers c w with
  | (Ok headers, c1, w1) =>
      (outcome_value (next_event w1) raw, c1,
       after_call w1 (mkRequest PUT (base_url +++ endpoint) headers [] []
                                (APIClient.json_arg data) []))
  | (Raise _, c1, w1) => (Ok VNone, c1, w1)
  | (OutOfFuel, c1, w1) => (OutOfFuel, c1, w1)
  end.
Proof.
  unfold APIClient.put.
  apply (verb_eq (fun h => mkRequest PUT (base_url +++ endpoint) h [] []
                                     (APIClient.json_arg data) [])).
Qed.

Lemma patch_eq (base_url endpoint : string) (data : value) (raw : bool)
      (c : APIClient) (w : World) :
  APIClient.patch base_url endpoint data raw c w =
  match APIClient._get_headers c w with
  | (Ok headers, c1, w1) =>
      (outcome_value (next_event w1) raw, c1,
       after_call w1 (mkRequest PATCH (base_url +++ endpoint) headers [] []
                                (APIClient.json_arg data) []))
  | (Raise _, c1, w1) => (Ok VNone, c1, w1)
  | (OutOfFuel, c1, w1) => (OutOfFuel, c1, w1)
  end.
Proof.
  unfold APIClient.patch.
  apply (verb_eq (fun h => mkRequest PATCH (base_url +++ endpoint) h [] []
                                     (APIClient.json_arg data) [])).
Qed.

Lemma post_eq (base_url endpoint : string) (data : value)
      (files : option (list (string * string))) (raw : bool)
      (c : APIClient) (w : World) :
  APIClient.post base_url endpoint data files raw c w =
  match APIClient._get_headers c w with
  | (Ok headers, c1, w1) =>
      (outcome_value (next_event w1) raw, c1,
       after_call w1 (post_request (base_url +++ endpoint) headers data files))
  | (Raise _, c1, w1) => (Ok VNone, c1, w1)
  | (OutOfFuel, c1, w1) => (OutOfFuel, c1, w1)
  end.
Proof.
  rewrite <- (verb_eq (fun h => post_request (base_url +++ endpoint) h data files)).
  unfold APIClient.post, post_request, try_except, bind.
  destruct (APIClient.files_truthy files);
    destruct (APIClient._get_headers c w) as [[[h|e|] c1] w1]; reflexivity.
Qed.

(** X2. With a non-empty token in the slot, each verb issues exactly one
    request, which carries that token as bearer, consumes exactly one outcome
    of the network, and leaves the client as it was, whatever the response
    (a 401 included); it returns the normalised response, or [None] when the
    transport raised.  [put], [patch] and [post] without files send [data] as
    the JSON body unless it is [None]. *)
Theorem verbs_reuse_token (base_url endpoint : string)
        (params : option (list (string * value))) (data : value)
        (files : option (list (string * string))) (raw : bool)
        (c : APIClient) (w : World) :
  truthy (access_token c) = true ->
  APIClient.get base_url endpoint params raw c w
  = (outcome_value (next_event w) raw, c,
     after_call w (mkRequest GET (base_url +++ endpoint) (headers_of (access_token c))
                             (encode_params params) [] None []))
  /\ APIClient.post base_url endpoint data files raw c w
     = (outcome_value (next_event w) raw, c,
        after_call w (post_request (base_url +++ endpoint) (headers_of (access_token c))
                                   data files))
  /\ APIClient.put base_url endpoint data raw c w
     = (outcome_value (next_event w) raw, c,
        after_call w (mkRequest PUT (base_url +++ endpoint) (headers_of (access_token c))
                                [] [] (APIClient.json_arg data) []))
  /\ APIClient.patch base_url endpoint data raw c w
     = (outcome_value (next_event w) raw, c,
        after_call w (mkRequest PATCH (base_url +++ endpoint) (headers_of (access_token c))
                                [] [] (APIClient.json_arg data) [])).
Proof.
  intros T.
  rewrite get_eq, post_eq, put_eq, patch_eq, get_headers_eq, T.
  repeat split.
Qed.

(* ================================================================= *)
(** ** Authentication, outcome by outcome *)

Lemma parse_json_unlabelled (r : Response) :
  labelled_json r = false -> APIClient._parse_json r = Ok (VDict []).
Proof.
  unfold APIClient._parse_json, labelled_json. intros ->. reflexivity.
Qed.

Lemma parse_json_labelled (r : Response) :
  labelled_json r = true ->
  APIClient._parse_json r = match json r with Some v => Ok v | None => Ok (VDict []) end.
Proof.
  unfold APIClient._parse_json, labelled_json, response_json. intros ->.
  destruct (json r); reflexivity.
Qed.

(** X3. What [_authenticate] does with a 200 from the token endpoint.  A body
    that is labelled JSON and parses to a mapping puts the [access_token]
    entry of the mapping in the slot, [None] when the entry is missing.  A
    body that is not labelled JSON, or does not parse, leaves [None] in the
    slot without any error.  A body that parses to something other than a
    mapping makes [_authenticate] raise [AttributeError], with the slot
    untouched. *)
Theorem authenticate_on_200 (c : APIClient) (w : World) (r : Response) :
  next_event w = NetResp r ->
  status_code r = 200%Z ->
  (forall d, labelled_json r = true -> json r = Some (VDict d) ->
     APIClient._authenticate c w
     = (Ok tt,
        mkClient (client_id c) (client_secret c)
                 (match lookup "access_token" d with Some t => t | None => VNone end),
        after_call w (auth_request c)))
  /\ (labelled_json r = false \/ json r = None ->
      APIClient._authenticate c w
      = (Ok tt, mkClient (client_id c) (client_secret c) VNone,
         after_call w (auth_request c)))
  /\ (forall body, labelled_json r = true -> json r = Some body -> is_dict body = false ->
      APIClient._authenticate c w = (Raise AttributeError, c, after_call w (auth_request c))).
Proof.
  intros E S. rewrite authenticate_eq, E. simpl. rewrite S. simpl.
  split; [|split].
  - intros d L J. rewrite (parse_json_labelled r L), J. reflexivity.
  - intros [L|J].
    + rewrite (parse_json_unlabelled r L). reflexivity.
    + destruct (labelled_json r) eqn:L.
      * rewrite (parse_json_labelled r L), J. reflexivity.
      * rewrite (parse_json_unlabelled r L). reflexivity.
  - intros body L J D. rewrite (parse_json_labelled r L), J.
    destruct body; try discriminate; reflexivity.
Qed.

Lemma authenticate_on_200_witness :
  next_event granting_world
  = NetResp (json_response 200 (VDict [("access_token", VStr "tok123")]))
  /\ fst (APIClient._authenticate fresh_client granting_world) = (Ok tt, sample_client)
  /\ fst (APIClient._authenticate fresh_client list_token_world)
     = (Raise AttributeError, fresh_client).
Proof.
  split; [reflexivity|].
  destruct (authenticate_on_200 fresh_client granting_world _ eq_refl eq_refl)
    as (A & _ & _).
  destruct (authenticate_on_200 fresh_client list_token_world _ eq_refl eq_refl)
    as (_ & _ & B).
  split.
  - rewrite (A _ eq_refl eq_refl). reflexivity.
  - rewrite (B _ eq_refl eq_refl eq_refl). reflexivity.
Defined.

(** The token a returning [_authenticate] stores is [None] or the
    [access_token] entry of the mapping a 200 response parsed to. *)
Lemma token_after_ok (ev : NetEvent) (token : value) :
  token_after ev = Ok token ->
  token = VNone
  \/ exists r d,
       ev = NetResp r /\ status_code r = 200%Z
       /\ APIClient._parse_json r = Ok (VDict d)
       /\ lookup "access_token" d = Some token.
Proof.
  destruct ev as [r|e]; simpl.
  - destruct (status_code r =? 200)%Z eqn:S; [|intros H; inversion H; auto].
    destruct (parse_json_total r) as [body P]. rewrite P. simpl.
    destruct body as [| | | | |d]; simpl; try discriminate.
    destruct (lookup "access_token" d) as [t|] eqn:L; intros H; inversion H; subst; auto.
    right. exists r, d. apply Z.eqb_eq in S. auto.
  - destruct (is_RequestException e); intros H; inversion H; auto.
Qed.

(** X4. The constructor stores the credentials and makes exactly one
    request, the token request, whatever the network does; it cannot fail,
    since any exception of [_authenticate] is swallowed.  Afterwards the slot
    holds [None], or the [access_token] entry of the mapping a 200 response
    parsed to. *)
Theorem init_authenticates_once (id secret : value) (w : World) :
  client_id (fst (APIClient.__init__ id secret w)) = id
  /\ client_secret (fst (APIClient.__init__ id secret w)) = secret
  /\ snd (APIClient.__init__ id secret w)
     = after_call w (auth_request (mkClient id secret VNone))
  /\ (access_token (fst (APIClient.__init__ id secret w)) = VNone
      \/ exists r d,
           next_event w = NetResp r /\ status_code r = 200%Z
           /\ APIClient._parse_json r = Ok (VDict d)
           /\ lookup "access_token" d
              = Some (access_token (fst (APIClient.__init__ id secret w)))).
Proof.
  unfold APIClient.__init__, try_except. rewrite authenticate_eq.
  pose proof (token_after_ok (next_event w)) as K.
  pose proof (token_after_fuel (next_event w)) as F.
  destruct (token_after (next_event w)) as [token|e|]; simpl.
  - repeat split. destruct (K token eq_refl) as [->|(r & d & H)]; [left; reflexivity|].
    right. exists r, d. exact H.
  - repeat split. left; reflexivity.
  - congruence.
Qed.

(** X5. Re-authentication inside a request.  When the slot is empty, [get]
    first makes the token request.  If that fails silently (status other than
    200, or an exception of the [requests] family), the GET is issued all the
    same, with the bearer text [None], and the slot stays [None], so the next
    call will try again.  If the token endpoint answers 200 with a JSON
    mapping, the GET carries the fresh [access_token] entry, which stays in
    the slot.  Either way two outcomes of the network are consumed. *)
Theorem get_reauthenticates (base_url endpoint : string)
        (params : option (list (string * value))) (raw : bool)
        (c : APIClient) (w : World) :
  truthy (access_token c) = false ->
  (auth_failure (next_event w) = true ->
   APIClient.get base_url endpoint params raw c w
   = (outcome_value (next_event (after_call w (auth_request c))) raw,
      mkClient (client_id c) (client_secret c) VNone,
      after_call (after_call w (auth_request c))
        (mkRequest GET (base_url +++ endpoint)
           [("Authorization", "Bearer None"); ("Content-Type", "application/json")]
           (encode_params params) [] None [])))
  /\ (forall r d token,
        next_event w = NetResp r -> status_code r = 200%Z ->
        labelled_json r = true -> json r = Some (VDict d) ->
        lookup "access_token" d = Some token ->
        APIClient.get base_url endpoint params raw c w
        = (outcome_value (next_event (after_call w (auth_request c))) raw,
           mkClient (client_id c) (client_secret c) token,
           after_call (after_call w (auth_request c))
             (mkRequest GET (base_url +++ endpoint)
                [("Authorization", "Bearer " +++ py_str token);
                 ("Content-Type", "application/json")]
                (encode_params params) [] None []))).
Proof.
  intros T. rewrite get_eq, get_headers_eq, T. split.
  - intros F. rewrite (auth_failure_token _ F). reflexivity.
  - intros r d token E S L J A. rewrite E. simpl. rewrite S. simpl.
    rewrite (parse_json_labelled r L), J. simpl. rewrite A. reflexivity.
Qed.

Lemma get_reauthenticates_witness :
  truthy (access_token fresh_client) = false
  /\ auth_failure (next_event unauthorized_world) = true
  /\ sent (snd (APIClient.get ProofAPI.BASE_URL "/" None false fresh_client
                  unauthorized_world))
     = [auth_request fresh_client;
        mkRequest GET "https://api.hyperproof.app/v1/proof/"
          [("Authorization", "Bearer None"); ("Content-Type", "application/json")]
          [] [] None []]
  /\ APIClient.get ProofAPI.BASE_URL "/" None false fresh_client granting_world
     = (Ok (VDict page2), sample_client,
        mkWorld []
          [auth_request fresh_client;
           mkRequest GET "https://api.hyperproof.app/v1/proof/"
             [("Authorization", "Bearer tok123"); ("Content-Type", "application/json")]
             [] [] None []] []).
Proof.
  destruct (get_reauthenticates ProofAPI.BASE_URL "/" None false fresh_client
              unauthorized_world eq_refl) as [A _].
  destruct (get_reauthenticates ProofAPI.BASE_URL "/" None false fresh_client
              granting_world eq_refl) as [_ B].
  split; [reflexivity|]. split; [reflexivity|]. split.
  - rewrite (A eq_refl). reflexivity.
  - rewrite (B _ _ (VStr "tok123") eq_refl eq_refl eq_refl eq_refl eq_refl). reflexivity.
Defined.

(** X6. When re-authentication raises, the request is not sent.  With an
    empty slot and a token endpoint that answers 200 with a JSON body other
    than a mapping, each verb returns [None] having issued the token request
    only, and the client is left as it was. *)
Theorem reauth_error_suppresses_request (base_url endpoint : string)
        (params : option (list (string * value))) (data : value)
        (files : option (list (string * string))) (raw : bool)
        (c : APIClient) (w : World) (r : Response) (body : value) :
  truthy (access_token c) = false ->
  next_event w = NetResp r -> status_code r = 200%Z ->
  labelled_json r = true -> json r = Some body -> is_dict body = false ->
  APIClient.get base_url endpoint params raw c w
  = (Ok VNone, c, after_call w (auth_request c))
  /\ APIClient.post base_url endpoint data files raw c w
     = (Ok VNone, c, after_call w (auth_request c))
  /\ APIClient.put base_url endpoint data raw c w
     = (Ok VNone, c, after_call w (auth_request c))
  /\ APIClient.patch base_url endpoint data raw c w
     = (Ok VNone, c, after_call w (auth_request c)).
Proof.
  intros T E S L J D.
  assert (A : token_after (next_event w) = Raise AttributeError).
  { rewrite E. simpl. rewrite S, (parse_json_labelled r L), J.
    destruct body; try discriminate; reflexivity. }
  rewrite get_eq, post_eq, put_eq, patch_eq, get_headers_eq, T, A.
  repeat split.
Qed.

Lemma reauth_error_suppresses_request_witness :
  truthy (access_token fresh_client) = false
  /\ next_event list_token_world = NetResp (json_response 200 (VList [VStr "tok123"]))
  /\ APIClient.get ProofAPI.BASE_URL "/" None false fresh_client list_token_world
     = (Ok VNone, fresh_client,
        mkWorld [NetResp (json_response 200 (VDict page2))]
                [auth_request fresh_client] []).
Proof.
  destruct (reauth_error_suppresses_request ProofAPI.BASE_URL "/" None VNone None false
              fresh_client list_token_world _ _
              eq_refl eq_refl eq_refl eq_refl eq_refl eq_refl) as [A _].
  split; [reflexivity|]. split; [reflexivity|].
  rewrite A. reflexivity.
Defined.

(** X7. Raw against parsed.  For a status outside 400..599, the raw flag
    gives the text of the body whatever its Content-Type, and without the
    flag a body labelled JSON that parses gives the parsed value; but a body
    that is not labelled JSON gives the empty mapping, even if it would
    parse. *)
Theorem raw_and_parsed (r : Response) :
  (status_code r < 400 \/ 600 <= status_code r)%Z ->
  APIClient._handle_response r true = Ok (VStr (text r))
  /\ (forall v, labelled_json r = true -> json r = Some v ->
        APIClient._handle_response r false = Ok v)
  /\ (labelled_json r = false -> APIClient._handle_response r false = Ok (VDict [])).
Proof.
  intros S.
  assert (E : raise_for_status r = Ok tt).
  { unfold raise_for_status.
    destruct (400 <=? status_code r)%Z eqn:A; [|reflexivity].
    destruct (status_code r <? 600)%Z eqn:B; [|reflexivity].
    apply Z.leb_le in A. apply Z.ltb_lt in B. lia. }
  unfold APIClient._handle_response. rewrite E. simpl.
  split; [reflexivity|]. split.
  - intros v L J. rewrite (parse_json_labelled r L), J. reflexivity.
  - intros L. rewrite (parse_json_unlabelled r L). reflexivity.
Qed.

Lemma raw_and_parsed_witness :
  (status_code (json_response 200 (VDict page2)) < 400
   \/ 600 <= status_code (json_response 200 (VDict page2)))%Z
  /\ APIClient._handle_response (json_response 200 (VDict page2)) true
     = Ok (VStr "{'data': [{'id': 'p3'}]}")
  /\ APIClient._handle_response (json_response 200 (VDict page2)) false = Ok (VDict page2)
  /\ APIClient._handle_response
       (mkResponse 200 (Some "text/plain") "{}" (Some (VDict page2))) false
     = Ok (VDict []).
Proof.
  assert (S : (status_code (json_response 200 (VDict page2)) < 400
               \/ 600 <= status_code (json_response 200 (VDict page2)))%Z)
    by (left; simpl; lia).
  destruct (raw_and_parsed (json_response 200 (VDict page2)) S) as (A & B & _).
  destruct (raw_and_parsed (mkResponse 200 (Some "text/plain") "{}" (Some (VDict page2))) S)
    as (_ & _ & C).
  split; [exact S|]. split; [rewrite A; reflexivity|].
  split; [apply B; reflexivity|apply C; reflexivity].
Defined.

(* ================================================================= *)
(** ** More on pagination *)

Lemma get_with_token (base_url endpoint : string)
      (params : option (list (string * value))) (raw : bool)
      (c : APIClient) (w : World) :
  truthy (access_token c) = true ->
  APIClient.get base_url endpoint params raw c w
  = (outcome_value (next_event w) raw, c,
     after_call w (mkRequest GET (base_url +++ endpoint) (headers_of (access_token c))
                             (encode_params params) [] None [])).
Proof. intros T. rewrite get_eq, get_headers_eq, T. reflexivity. Qed.

Lemma skipn_tl {A} (n : nat) (l : list A) : skipn n (tl l) = skipn (S n) l.
Proof. destruct l; [destruct n|]; reflexivity. Qed.

Lemma page_run_nonempty {mk : value -> list (string * value)}
      {c c' : APIClient} {w w' : World} {token : value}
      {pages : list (list (string * value))} :
  page_run mk c w token pages c' w' -> pages <> [].
Proof. intros R. inversion R; discriminate. Qed.

(** X8. The cursor is threaded.  With a token in the slot, a run of the
    pagination loop over the pages P1..Pn issues exactly n requests, in
    order: the first with the token the loop started from ([None], which
    [requests] leaves out of the query), the (i+1)-th with the continuation
    token page i carried.  It consumes exactly n outcomes of the network,
    leaving the later ones untouched, and does not change the client. *)
Theorem pagination_threads_cursor
        (limit sort_by sort_direction object_type object_id : value)
        (c c' : APIClient) (w w' : World) (token : value)
        (pages : list (list (string * value))) :
  truthy (access_token c) = true ->
  page_run (ProofAPI.page_params limit sort_by sort_direction object_type object_id)
           c w token pages c' w' ->
  c' = c
  /\ sent w' = sent w ++
               map (page_request c limit sort_by sort_direction object_type object_id)
                   (token :: map continuation (removelast pages))
  /\ net w' = skipn (length pages) (net w).
Proof.
  intros T R.
  induction R as [c w token d l c' w' G D N
                 |c w token d l pages c1 w1 c' w' G D N R IH].
  - rewrite (get_with_token _ _ _ _ c w T) in G. inversion G; subst.
    repeat split.
  - rewrite (get_with_token _ _ _ _ c w T) in G. inversion G; subst c1 w1.
    destruct (IH T) as (-> & S & K). split; [reflexivity|]. split.
    + rewrite S. simpl sent. rewrite <- app_assoc.
      pose proof (page_run_nonempty R) as NE.
      destruct pages as [|p ps]; [contradiction|]. reflexivity.
    + rewrite K. simpl net. apply skipn_tl.
Qed.

Lemma pagination_threads_cursor_witness :
  truthy (access_token sample_client) = true
  /\ map rq_query
         (sent (snd (ProofAPI.get_proof_metadata_collection (VInt 500) (VStr "uploadedOn")
                       (VStr "desc") VNone VNone false sample_client two_pages)))
     = [[("limit", "500"); ("sortBy", "uploadedOn"); ("sortDirection", "desc")];
        [("limit", "500"); ("sortBy", "uploadedOn"); ("sortDirection", "desc");
         ("nextToken", "abc")]].
Proof.
  set (w' := snd (ProofAPI.get_proof_metadata_collection (VInt 500) (VStr "uploadedOn")
                    (VStr "desc") VNone VNone false sample_client two_pages)).
  assert (R : page_run
                (ProofAPI.page_params (VInt 500) (VStr "uploadedOn") (VStr "desc")
                                      VNone VNone)
                sample_client two_pages VNone [page1; page2] sample_client w').
  { eapply run_more; [vm_compute; reflexivity|reflexivity|reflexivity|].
    eapply run_last; [vm_compute; reflexivity|reflexivity|reflexivity]. }
  destruct (pagination_threads_cursor _ _ _ _ _ sample_client _ _ _ _ _ eq_refl R)
    as (_ & S & _).
  split; [reflexivity|]. rewrite S. reflexivity.
Defined.

(** X9. The integrity check of [get_proof_by_label] tells two failures
    apart.  At any pass, a fetch that returns [None] (an HTTP error, or a
    transport failure) raises [PermissionError]; a fetch that returns a
    mapping without [data], the empty mapping of a malformed body included,
    raises the [ValueError] of a missing page.  Both end the loop in the
    state the fetch left. *)
Theorem label_loop_integrity (label_name : string)
        (limit sort_by sort_direction label_id : value)
        (fuel : nat) (acc : list value) (token env : value)
        (c c1 : APIClient) (w w1 : World) :
  APIClient.get ProofAPI.BASE_URL "/"
    (Some (ProofAPI.page_params limit sort_by sort_direction (VStr "label") label_id token))
    false c w = (Ok env, c1, w1) ->
  (env = VNone ->
   ProofAPI.label_loop (S fuel) label_name limit sort_by sort_direction label_id
                       acc token c w
   = (Raise (PermissionError
               ("Access to the label '" +++ label_name +++
                "' is forbidden. Please ensure you have joined the label.")),
      c1, w1))
  /\ (forall d, env = VDict d -> lookup "data" d = None ->
      ProofAPI.label_loop (S fuel) label_name limit sort_by sort_direction label_id
                          acc token c w
      = (Raise ProofAPI.no_data, c1, w1)).
Proof.
  intros G. split.
  - intros ->. simpl. unfold bind at 1. rewrite G. reflexivity.
  - intros d -> D. simpl. unfold bind at 1. rewrite G.
    unfold bind, lift, ProofAPI.collect_label_page. simpl.
    unfold has_key. rewrite D. reflexivity.
Qed.

Lemma label_loop_integrity_witness :
  APIClient.get ProofAPI.BASE_URL "/"
    (Some (ProofAPI.page_params (VInt 500) (VStr "uploadedOn") (VStr "desc")
                                (VStr "label") (VStr "L1") VNone))
    false sample_client not_found_world
  = (Ok VNone, sample_client,
     snd (APIClient.get ProofAPI.BASE_URL "/"
            (Some (ProofAPI.page_params (VInt 500) (VStr "uploadedOn") (VStr "desc")
                                        (VStr "label") (VStr "L1") VNone))
            false sample_client not_found_world))
  /\ fst (fst (ProofAPI.label_loop 1 "SOC2" (VInt 500) (VStr "uploadedOn") (VStr "desc")
                 (VStr "L1") [] VNone sample_client not_found_world))
     = Raise (PermissionError
                "Access to the label 'SOC2' is forbidden. Please ensure you have joined the label.").
Proof.
  assert (G : APIClient.get ProofAPI.BASE_URL "/"
                (Some (ProofAPI.page_params (VInt 500) (VStr "uploadedOn") (VStr "desc")
                                            (VStr "label") (VStr "L1") VNone))
                false sample_client not_found_world
              = (Ok VNone, sample_client,
                 snd (APIClient.get ProofAPI.BASE_URL "/"
                        (Some (ProofAPI.page_params (VInt 500) (VStr "uploadedOn")
                                 (VStr "desc") (VStr "label") (VStr "L1") VNone))
                        false sample_client not_found_world)))
    by (vm_compute; reflexivity).
  split; [exact G|].
  destruct (label_loop_integrity "SOC2" _ _ _ _ 0 [] _ _ _ _ _ _ G) as [A _].
  rewrite (A eq_refl). reflexivity.
Defined.

Lemma first_matching_none (re_search : string -> string -> result bool)
      (label_name : string) (labels : list value) :
  Forall (fun label =>
            exists d s,
              label = VDict d
              /\ match lookup "name" d with Some x => x | None => VStr "" end = VStr s
              /\ re_search label_name s = Ok false) labels ->
  ProofAPI.first_matching re_search label_name labels = Ok VNone.
Proof.
  induction 1 as [|label labels (d & s & -> & N & S) _ IH]; [reflexivity|].
  simpl. rewrite N. simpl. rewrite S. simpl. exact IH.
Qed.

(** X10. [get_proof_by_label] without a label.  If the fetch of the label
    summaries fails and returns [None], the call raises [TypeError]; if it
    returns a list in which no label has a name the pattern is found in (the
    empty list included), the call raises the [ValueError] that names the
    pattern.  In both cases no request for proof is made: the state is the
    one the fetch of the summaries left. *)
Theorem get_proof_by_label_without_label
        (re_search : string -> string -> result bool) (label_name : string)
        (limit sort_by sort_direction : value) (raw : bool)
        (c c1 : APIClient) (w w1 : World) (summaries : value) :
  LabelsAPI.get_label_summaries VNone VNone false c w = (Ok summaries, c1, w1) ->
  (summaries = VNone ->
   ProofAPI.get_proof_by_label re_search label_name limit sort_by sort_direction raw c w
   = (Raise TypeError, c1, w1))
  /\ (forall labels,
        summaries = VList labels ->
        Forall (fun label =>
                  exists d s,
                    label = VDict d
                    /\ match lookup "name" d with Some x => x | None => VStr "" end = VStr s
                    /\ re_search label_name s = Ok false) labels ->
        ProofAPI.get_proof_by_label re_search label_name limit sort_by sort_direction raw c w
        = (Raise (ValueError ("No label found with the name: " +++ label_name)), c1, w1)).
Proof.
  intros G. unfold ProofAPI.get_proof_by_label, ProofAPI.find_label_id. split.
  - intros ->. unfold bind at 1. unfold bind at 1. rewrite G. reflexivity.
  - intros labels -> F. unfold bind at 1. unfold bind at 1. rewrite G.
    unfold bind, lift. simpl. rewrite (first_matching_none _ _ _ F). reflexivity.
Qed.

Lemma get_proof_by_label_without_label_witness :
  fst (LabelsAPI.get_label_summaries VNone VNone false sample_client not_found_world)
  = (Ok VNone, sample_client)
  /\ fst (ProofAPI.get_proof_by_label substring_search "SOC2" (VInt 500)
            (VStr "uploadedOn") (VStr "desc") false sample_client not_found_world)
     = (Raise TypeError, sample_client)
  /\ fst (ProofAPI.get_proof_by_label substring_search "ISO" (VInt 500)
            (VStr "uploadedOn") (VStr "desc") false sample_client label_world)
     = (Raise (ValueError "No label found with the name: ISO"), sample_client).
Proof.
  set (w1 := snd (LabelsAPI.get_label_summaries VNone VNone false sample_client
                    not_found_world)).
  set (w2 := snd (LabelsAPI.get_label_summaries VNone VNone false sample_client
                    label_world)).
  assert (G1 : LabelsAPI.get_label_summaries VNone VNone false sample_client
                 not_found_world = (Ok VNone, sample_client, w1))
    by (vm_compute; reflexivity).
  assert (G2 : LabelsAPI.get_label_summaries VNone VNone false sample_client label_world
               = (Ok (VList [VDict [("id", VStr "L1"); ("name", VStr "SOC2 evidence")]]),
                  sample_client, w2))
    by (vm_compute; reflexivity).
  destruct (get_proof_by_label_without_label substring_search "SOC2" (VInt 500)
              (VStr "uploadedOn") (VStr "desc") false _ _ _ _ _ G1) as [A _].
  destruct (get_proof_by_label_without_label substring_search "ISO" (VInt 500)
              (VStr "uploadedOn") (VStr "desc") false _ _ _ _ _ G2) as [_ B].
  split; [rewrite G1; reflexivity|].
  split; [rewrite (A eq_refl); reflexivity|].
  rewrite (B _ eq_refl); [reflexivity|].
  constructor; [|constructor].
  exists [("id", VStr "L1"); ("name", VStr "SOC2 evidence")], "SOC2 evidence".
  repeat split.
Defined.

(* ================================================================= *)
(** ** Uploads *)

(** X11. The upload wrappers are not fail-soft.  When the file cannot be
    opened, [add_proof], [add_proof_version] and [add_task_proof] raise
    [OSError] to the caller, and nothing has happened: no request, no
    authentication, client and world unchanged. *)
Theorem upload_of_missing_file (file_path : string) (w : World) (c : APIClient)
        (proof_id task_id object_id object_type : value)
        (owned_by source source_id source_file_id modified_on live_sync : value)
        (raw : bool) :
  find (fun f => String.eqb file_path (fst f)) (disk w) = None ->
  ProofAPI.add_proof file_path object_id object_type raw c w = (Raise OSError, c, w)
  /\ ProofAPI.add_proof_version proof_id file_path raw c w = (Raise OSError, c, w)
  /\ TasksAPI.add_task_proof task_id file_path owned_by source source_id source_file_id
       modified_on live_sync raw c w = (Raise OSError, c, w).
Proof.
  intros F.
  unfold ProofAPI.add_proof, ProofAPI.add_proof_version, TasksAPI.add_task_proof,
    bind, open_rb.
  rewrite F. repeat split.
Qed.

Lemma upload_of_missing_file_witness :
  find (fun f => String.eqb "missing.pdf" (fst f)) (disk upload_world) = None
  /\ ProofAPI.add_proof "missing.pdf" (VStr "c-42") (VStr "control") false
       sample_client upload_world
     = (Raise OSError, sample_client, upload_world).
Proof.
  split; [reflexivity|].
  apply (upload_of_missing_file "missing.pdf" upload_world sample_client
           VNone VNone (VStr "c-42") (VStr "control") VNone VNone VNone VNone VNone VNone
           false eq_refl).
Defined.

(** X12. [add_task_proof] never transmits the provenance of the proof.  The
    six [hp-proof-...] fields are put in [data], but since the call hands
    [post] a files payload, no request it issues has a JSON body or carries
    one of these fields, whatever their values.  With a token in the slot and
    the file on disk, the one request issued is the multipart upload of the
    part [proof]. *)
Theorem add_task_proof_drops_provenance (task_id : value) (file_path : string)
        (owned_by source source_id source_file_id modified_on live_sync : value)
        (raw : bool) (c : APIClient) (w : World) :
  (exists new,
     sent (snd (TasksAPI.add_task_proof task_id file_path owned_by source source_id
                  source_file_id modified_on live_sync raw c w)) = sent w ++ new
     /\ forall rq, In rq new ->
          rq_json rq = None
          /\ forall k, In k provenance_fields -> ~ In k (field_names rq))
  /\ (forall content,
        truthy (access_token c) = true ->
        find (fun f => String.eqb file_path (fst f)) (disk w) = Some (file_path, content) ->
        sent (snd (TasksAPI.add_task_proof task_id file_path owned_by source source_id
                     source_file_id modified_on live_sync raw c w))
        = sent w ++ [mkRequest POST
                       (TasksAPI.BASE_URL +++ "/" +++ py_str task_id +++ "/proof")
                       (headers_of (access_token c)) [] [] None [("proof", content)]]).
Proof.
  unfold TasksAPI.add_task_proof, bind, open_rb. split.
  - destruct (find _ (disk w)) as [f|].
    + set (data := VDict _). set (url := "/" +++ _).
      destruct (post_files_log TasksAPI.BASE_URL url data (Some [("proof", snd f)]) raw c w
                  eq_refl) as (new & S & _ & Q).
      exists new. split; [exact S|].
      intros rq I. destruct (Q rq I) as [->|(h & ->)].
      * split; [reflexivity|].
        intros k K A. apply auth_request_fields in A.
        simpl in K. destruct A as [->|[->| ->]]; intuition discriminate.
      * split; [reflexivity|].
        intros k K [A|[]]. subst k. simpl in K. intuition discriminate.
    + exists []. split; [simpl; rewrite app_nil_r; reflexivity|].
      intros rq [].
  - intros content T F. rewrite F. simpl snd.
    rewrite post_eq, get_headers_eq, T. reflexivity.
Qed.

Lemma add_task_proof_drops_provenance_witness :
  truthy (access_token sample_client) = true
  /\ find (fun f => String.eqb "evidence.pdf" (fst f)) (disk upload_world)
     = Some ("evidence.pdf", "%PDF-1.7")
  /\ sent (snd (TasksAPI.add_task_proof (VStr "t-7") "evidence.pdf" (VStr "u-1")
                  (VStr "jira") VNone VNone VNone (VBool false) false
                  sample_client upload_world))
     = [mkRequest POST "https://api.hyperproof.app/v1/tasks/t-7/proof"
          [("Authorization", "Bearer tok123"); ("Content-Type", "application/json")]
          [] [] None [("proof", "%PDF-1.7")]].
Proof.
  destruct (add_task_proof_drops_provenance (VStr "t-7") "evidence.pdf" (VStr "u-1")
              (VStr "jira") VNone VNone VNone (VBool false) false
              sample_client upload_world) as [_ A].
  split; [reflexivity|]. split; [reflexivity|].
  rewrite (A "%PDF-1.7" eq_refl eq_refl). reflexivity.
Defined.

(** X13. [get_proof_contents] sends the [version] parameter only when the
    version is true: with a token in the slot, the one request it issues has
    an empty query for a version that is [None], zero or the empty string,
    and the query [version=str(version)] for any other integer or string. *)
Theorem get_proof_contents_version (proof_id version : value) (raw : bool)
        (c : APIClient) (w : World) :
  truthy (access_token c) = true ->
  exists query,
    sent (snd (ProofAPI.get_proof_contents proof_id version raw c w))
    = sent w ++ [mkRequest GET
                   (ProofAPI.BASE_URL +++ "/" +++ py_str proof_id +++ "/contents")
                   (headers_of (access_token c)) query [] None []]
    /\ (truthy version = false -> query = [])
    /\ (truthy version = true -> is_scalar version = true ->
        query = [("version", py_str version)]).
Proof.
  intros T. unfold ProofAPI.get_proof_contents.
  rewrite (get_with_token _ _ _ _ c w T). eexists. split; [reflexivity|].
  split; intros V.
  - rewrite V. reflexivity.
  - intros S. rewrite V. simpl. rewrite (encode_param_scalar "version" version S).
    reflexivity.
Qed.

Lemma get_proof_contents_version_witness :
  truthy (access_token sample_client) = true
  /\ map rq_query (sent (snd (ProofAPI.get_proof_contents (VStr "p1") (VInt 0) true
                                sample_client two_pages))) = [[]]
  /\ map rq_query (sent (snd (ProofAPI.get_proof_contents (VStr "p1") (VInt 2) true
                                sample_client two_pages))) = [[("version", "2")]].
Proof.
  destruct (get_proof_contents_version (VStr "p1") (VInt 0) true sample_client two_pages
              eq_refl) as (q0 & S0 & A & _).
  destruct (get_proof_contents_version (VStr "p1") (VInt 2) true sample_client two_pages
              eq_refl) as (q2 & S2 & _ & B).
  split; [reflexivity|]. split.
  - rewrite S0, (A eq_refl). reflexivity.
  - rewrite S2, (B eq_refl eq_refl). reflexivity.
Defined.

(* ================================================================= *)
(** ** Task filters *)

Lemma truthy_snoc (l : list value) (x : value) : truthy (VList (l ++ [x])) = true.
Proof. destruct l; reflexivity. Qed.

Lemma truthy_as_list (v : value) : truthy v = true -> truthy (TasksAPI.as_list v) = true.
Proof. destruct v; simpl; auto. Qed.

Lemma is_list_as_list (v : value) : is_list (TasksAPI.as_list v) = true.
Proof. destruct v; reflexivity. Qed.

Lemma conflate_assignees_eq (assignee_ids assignee_id : value) :
  TasksAPI.conflate_assignees assignee_ids assignee_id
  = Ok (if truthy assignee_id then VList (members assignee_ids ++ [assignee_id])
        else if truthy assignee_ids then TasksAPI.as_list assignee_ids
             else assignee_ids).
Proof.
  unfold TasksAPI.conflate_assignees, members, TasksAPI.as_list.
  destruct (truthy assignee_id);
    destruct assignee_ids as [|b|z|s|l|d];
    match goal with
    | |- context [truthy ?v && _] => destruct (truthy v) eqn:T
    end;
    cbn [is_list negb andb]; try reflexivity;
    try (cbn [truthy negb]; reflexivity);
    rewrite T; reflexivity.
Qed.

Ltac filter_cases :=
  repeat match goal with
         | |- context [if truthy ?v then _ else _] =>
             let E := fresh "E" in destruct (truthy v) eqn:E
         end.

(** X14. The filter [filter_tasks] builds.  Building never fails.  A filter
    is present exactly when its argument is true, so every entry holds a true
    value and no key occurs twice.  [targetObjectIds], [taskIds] and
    [assigneeIds] are always lists: a single value is wrapped.  And
    [assignee_id], when given, comes last in [assigneeIds], after the members
    of [assignee_ids]. *)
Theorem filter_data_shape (target_object_type target_object_ids task_ids assignee_ids
                           assignee_id modified_after : value) :
  exists data,
    TasksAPI.filter_data target_object_type target_object_ids task_ids assignee_ids
                         assignee_id modified_after = Ok data
    /\ NoDup (map fst data)
    /\ (forall k v, In (k, v) data -> truthy v = true)
    /\ (forall k v, In (k, v) data ->
          k = "targetObjectIds" \/ k = "taskIds" \/ k = "assigneeIds" -> is_list v = true)
    /\ has_key "targetObjectType" data = truthy target_object_type
    /\ has_key "targetObjectIds" data = truthy target_object_ids
    /\ has_key "taskIds" data = truthy task_ids
    /\ has_key "modifiedAfter" data = truthy modified_after
    /\ lookup "assigneeIds" data
       = (if truthy assignee_id then Some (VList (members assignee_ids ++ [assignee_id]))
          else if truthy assignee_ids then Some (TasksAPI.as_list assignee_ids)
               else None).
Proof.
  unfold TasksAPI.filter_data. rewrite conflate_assignees_eq. simpl rbind.
  eexists. split; [reflexivity|].
  assert (TA : truthy (if truthy assignee_id
                       then VList (members assignee_ids ++ [assignee_id])
                       else if truthy assignee_ids then TasksAPI.as_list assignee_ids
                            else assignee_ids)
               = truthy assignee_id || truthy assignee_ids).
  { destruct (truthy assignee_id) eqn:A; [apply truthy_snoc|].
    destruct (truthy assignee_ids) eqn:B; [apply truthy_as_list, B|exact B]. }
  assert (LA : truthy assignee_id || truthy assignee_ids = true ->
               is_list (if truthy assignee_id
                        then VList (members assignee_ids ++ [assignee_id])
                        else if truthy assignee_ids then TasksAPI.as_list assignee_ids
                             else assignee_ids) = true).
  { destruct (truthy assignee_id); [reflexivity|].
    destruct (truthy assignee_ids); [intros _; apply is_list_as_list|discriminate]. }
  rewrite TA.
  pose proof (truthy_as_list target_object_ids) as T1.
  pose proof (truthy_as_list task_ids) as T2.
  pose proof (is_list_as_list target_object_ids) as L1.
  pose proof (is_list_as_list task_ids) as L2.
  destruct (truthy target_object_type) eqn:E1;
    destruct (truthy target_object_ids) eqn:E2;
    destruct (truthy task_ids) eqn:E3;
    destruct (truthy modified_after) eqn:E4;
    destruct (truthy assignee_id) eqn:E5;
    destruct (truthy assignee_ids) eqn:E6;
    cbn [orb app] in *;
    (split; [repeat constructor; simpl; intuition discriminate|]);
    (split; [intros k v I; simpl in I;
             repeat match type of I with
                    | _ \/ _ => destruct I as [I|I]
                    | False => destruct I
                    | (_, _) = (_, _) => inversion I; subst; clear I
                    end; auto; try (apply truthy_snoc)|]);
    (split; [intros k v I K; simpl in I;
             repeat match type of I with
                    | _ \/ _ => destruct I as [I|I]
                    | False => destruct I
                    | (_, _) = (_, _) => inversion I; subst; clear I
                    end; auto;
             destruct K as [K|[K|K]]; discriminate|]);
    repeat split.
Qed.




(* ================================================================= *)
(** ** All tasks *)

Lemma handle_response_raw (r : Response) :
  APIClient._handle_response r true = Ok VNone
  \/ APIClient._handle_response r true = Ok (VStr (text r)).
Proof.
  unfold APIClient._handle_response, raise_for_status.
  destruct ((400 <=? status_code r)%Z && (status_code r <? 600)%Z); simpl; auto.
Qed.

(** In raw mode [filter_tasks] returns [None] or a string. *)
Lemma filter_tasks_raw (a1 a2 a3 a4 a5 a6 : value) (c c' : APIClient) (w w' : World)
      (v : value) :
  TasksAPI.filter_tasks a1 a2 a3 a4 a5 a6 true c w = (Ok v, c', w') ->
  v = VNone \/ exists s, v = VStr s.
Proof.
  unfold TasksAPI.filter_tasks, TasksAPI.filter_data.
  rewrite conflate_assignees_eq. simpl rbind. unfold bind, lift.
  rewrite put_eq.
  destruct (APIClient._get_headers c w) as [[[h|e|] c1] w1]; intros H; inversion H.
  - destruct (next_event w1) as [r|e]; simpl in *.
    + destruct (handle_response_raw r) as [E|E]; rewrite E in *.
      * inversion H1; auto.
      * inversion H1; eauto.
    + inversion H1; auto.
  - auto.
Qed.

Lemma chars_are_chars (s : string) : Forall (fun v => is_char v = true) (chars s).
Proof. induction s; simpl; constructor; auto. Qed.

Lemma tasks_of_users_raw (users : list value) :
  forall (acc l : list value) (c c' : APIClient) (w w' : World),
    Forall (fun v => is_char v = true) acc ->
    TasksAPI.tasks_of_users true users acc c w = (Ok l, c', w') ->
    Forall (fun v => is_char v = true) l.
Proof.
  induction users as [|user users IH]; intros acc l c c' w w' A H.
  - inversion H; subst. exact A.
  - simpl in H. unfold bind at 1 in H. unfold lift at 1 in H.
    destruct (py_get user "id" VNone) as [user_id|e|]; try discriminate.
    destruct (truthy user_id); simpl in H; [|exact (IH _ _ _ _ _ _ A H)].
    unfold bind at 1 in H.
    destruct (TasksAPI.filter_tasks VNone VNone VNone (VList [user_id]) VNone VNone true c w)
      as [[[v|e|] c1] w1] eqn:F; try discriminate.
    apply filter_tasks_raw in F.
    destruct F as [->|[s ->]].
    + simpl in H. exact (IH _ _ _ _ _ _ A H).
    + destruct (truthy (VStr s)); simpl in H.
      * refine (IH _ _ _ _ _ _ _ H).
        apply Forall_app. split; [exact A|apply chars_are_chars].
      * exact (IH _ _ _ _ _ _ A H).
Qed.

(** X16. [get_all_tasks] in raw mode returns characters.  With [raw=True]
    each user's tasks come back as the text of a response, and extending the
    accumulator with a string adds its characters one by one: whenever the
    call returns a list, every element of it is a string of one character. *)
Theorem get_all_tasks_raw_is_characters (c c' : APIClient) (w w' : World)
        (l : list value) :
  TasksAPI.get_all_tasks true c w = (Ok (VList l), c', w') ->
  Forall (fun v => is_char v = true) l.
Proof.
  unfold TasksAPI.get_all_tasks. unfold bind at 1.
  destruct (UsersAPI.get_organization_users VNone (VBool false) false c w)
    as [[[users|e|] c1] w1]; try discriminate.
  destruct (truthy users); simpl; [|discriminate].
  unfold bind at 1. unfold lift at 1.
  destruct (py_iter users) as [items|e|]; try discriminate.
  unfold bind at 1.
  destruct (TasksAPI.tasks_of_users true items [] c1 w1) as [[[all|e|] c2] w2] eqn:T;
    try discriminate.
  apply tasks_of_users_raw in T; [|constructor].
  destruct all as [|t all]; [discriminate|].
  intros H. inversion H; subst. exact T.
Qed.

Lemma get_all_tasks_raw_is_characters_witness :
  fst (fst (TasksAPI.get_all_tasks true sample_client tasks_world))
  = Ok (VList [VStr "["; VStr "7"; VStr "]"])
  /\ Forall (fun v => is_char v = true) [VStr "["; VStr "7"; VStr "]"]
  /\ fst (fst (TasksAPI.get_all_tasks false sample_client tasks_world))
     = Ok (VList [VInt 7]).
Proof.
  set (w' := snd (TasksAPI.get_all_tasks true sample_client tasks_world)).
  assert (H : TasksAPI.get_all_tasks true sample_client tasks_world
              = (Ok (VList [VStr "["; VStr "7"; VStr "]"]), sample_client, w'))
    by (vm_compute; reflexivity).
  split; [rewrite H; reflexivity|].
  split; [exact (get_all_tasks_raw_is_characters _ _ _ _ _ H)|reflexivity].
Defined.

(** X17. What [get_all_tasks] can return.  Whenever it returns, the result
    is one of the two error mappings or a list that is not empty: an empty
    list of tasks is never returned.  And when the fetch of the users fails
    ([None]) or gives nothing, the result is the error mapping [No users
    found.], in the state that fetch left: no task is asked for. *)
Theorem get_all_tasks_result (raw : bool) (c : APIClient) (w : World) :
  (forall v c' w',
     TasksAPI.get_all_tasks raw c w = (Ok v, c', w') ->
     v = TasksAPI.no_users_found \/ v = TasksAPI.no_tasks_found
     \/ exists t l, v = VList (t :: l))
  /\ (forall users c1 w1,
        UsersAPI.get_organization_users VNone (VBool false) false c w
        = (Ok users, c1, w1) ->
        truthy users = false ->
        TasksAPI.get_all_tasks raw c w = (Ok TasksAPI.no_users_found, c1, w1)).
Proof.
  unfold TasksAPI.get_all_tasks. split.
  - intros v c' w'. unfold bind at 1.
    destruct (UsersAPI.get_organization_users VNone (VBool false) false c w)
      as [[[users|e|] c1] w1]; try discriminate.
    destruct (truthy users); simpl.
    + unfold bind at 1. unfold lift at 1.
      destruct (py_iter users) as [items|e|]; try discriminate.
      unfold bind at 1.
      destruct (TasksAPI.tasks_of_users raw items [] c1 w1) as [[[all|e|] c2] w2];
        try discriminate.
      destruct all as [|t all]; intros H; inversion H; eauto.
    + intros H; inversion H; auto.
  - intros users c1 w1 G F. unfold bind at 1. rewrite G, F. reflexivity.
Qed.

Lemma get_all_tasks_result_witness :
  fst (UsersAPI.get_organization_users VNone (VBool false) false sample_client
         not_found_world) = (Ok VNone, sample_client)
  /\ fst (TasksAPI.get_all_tasks false sample_client not_found_world)
     = (Ok (VDict [("error", VStr "No users found.")]), sample_client).
Proof.
  set (w1 := snd (UsersAPI.get_organization_users VNone (VBool false) false sample_client
                    not_found_world)).
  assert (G : UsersAPI.get_organization_users VNone (VBool false) false sample_client
                not_found_world = (Ok VNone, sample_client, w1))
    by (vm_compute; reflexivity).
  destruct (get_all_tasks_result false sample_client not_found_world) as [_ A].
  split; [rewrite G; reflexivity|].
  rewrite (A _ _ _ G eq_refl). reflexivity.
Defined.

(* ================================================================= *)
(** ** Proof of a user *)

Lemma user_matches_no_criteria (userid givenName surname user : value) :
  truthy userid = false -> truthy givenName = false -> truthy surname = false ->
  ProofAPI.user_matches userid givenName surname user = Ok false.
Proof.
  intros U G S. unfold ProofAPI.user_matches. rewrite U, G, S. reflexivity.
Qed.

Lemma filter_users_no_criteria (userid givenName surname : value) (users : list value) :
  truthy userid = false -> truthy givenName = false -> truthy surname = false ->
  ProofAPI.filter_users userid givenName surname users = Ok [].
Proof.
  intros U G S. induction users as [|user users IH]; [reflexivity|].
  simpl. rewrite (user_matches_no_criteria _ _ _ user U G S). simpl.
  rewrite IH. reflexivity.
Qed.

(** X18. Two ways [get_proof_by_user] returns without fetching any proof,
    in the state the fetch of the users left.  With [raw=True] it returns
    what the fetch of the organisation's users returned, users and not
    proof, unfiltered ([None] when that fetch failed).  With no criterion
    given (user id, given name and surname all empty) and users that can be
    iterated, no user is selected, whatever the users look like, and the
    result is the empty list. *)
Theorem get_proof_by_user_without_proof
        (userid givenName surname object_type object_id org_users : value)
        (c c1 : APIClient) (w w1 : World) :
  UsersAPI.get_organization_users VNone (VBool false) false c w = (Ok org_users, c1, w1) ->
  ProofAPI.get_proof_by_user userid givenName surname object_type object_id true c w
  = (Ok org_users, c1, w1)
  /\ (forall users,
        py_iter org_users = Ok users ->
        truthy userid = false -> truthy givenName = false -> truthy surname = false ->
        ProofAPI.get_proof_by_user userid givenName surname object_type object_id false c w
        = (Ok (VList []), c1, w1)).
Proof.
  intros G. unfold ProofAPI.get_proof_by_user. split.
  - unfold bind. rewrite G. reflexivity.
  - intros users I U N S. unfold bind at 1. rewrite G.
    unfold bind, lift. rewrite I, (filter_users_no_criteria _ _ _ users U N S).
    reflexivity.
Qed.

Lemma get_proof_by_user_without_proof_witness :
  fst (ProofAPI.get_proof_by_user (VStr "u-1") VNone VNone VNone VNone true
         sample_client users_world)
  = (Ok (VList [VDict [("id", VStr "u-1"); ("givenName", VStr "Ada")];
                VDict [("id", VStr "u-2"); ("givenName", VStr "Bob")]]), sample_client)
  /\ ProofAPI.get_proof_by_user VNone VNone VNone VNone VNone false
       sample_client users_world
     = ProofAPI.get_proof_by_user VNone (VStr "") (VInt 0) VNone VNone false
         sample_client users_world
  /\ fst (fst (ProofAPI.get_proof_by_user VNone VNone VNone VNone VNone false
                 sample_client users_world)) = Ok (VList []).
Proof.
  set (w1 := snd (UsersAPI.get_organization_users VNone (VBool false) false sample_client
                    users_world)).
  assert (G : UsersAPI.get_organization_users VNone (VBool false) false sample_client
                users_world
              = (Ok (VList [VDict [("id", VStr "u-1"); ("givenName", VStr "Ada")];
                            VDict [("id", VStr "u-2"); ("givenName", VStr "Bob")]]),
                 sample_client, w1))
    by (vm_compute; reflexivity).
  destruct (get_proof_by_user_without_proof (VStr "u-1") VNone VNone VNone VNone _ _ _ _ _ G)
    as [A _].
  destruct (get_proof_by_user_without_proof VNone VNone VNone VNone VNone _ _ _ _ _ G)
    as [_ B].
  destruct (get_proof_by_user_without_proof VNone (VStr "") (VInt 0) VNone VNone
              _ _ _ _ _ G) as [_ B'].
  split; [rewrite A; reflexivity|].
  rewrite (B _ eq_refl eq_refl eq_refl eq_refl), (B' _ eq_refl eq_refl eq_refl eq_refl).
  split; reflexivity.
Defined.









(* ================================================================= *)
(** ** Instances *)

Lemma verbs_reuse_token_witness :
  truthy (access_token sample_client) = true
  /\ APIClient.get ProofAPI.BASE_URL "/p1" None false sample_client not_found_world
     = (Ok VNone, sample_client,
        mkWorld []
          [mkRequest GET "https://api.hyperproof.app/v1/proof/p1"
             [("Authorization", "Bearer tok123"); ("Content-Type", "application/json")]
             [] [] None []] [])
  /\ sent (snd (APIClient.patch TasksAPI.BASE_URL "/t-7" (VDict [("title", VNone)]) false
                  sample_client not_found_world))
     = [mkRequest PATCH "https://api.hyperproof.app/v1/tasks/t-7"
          [("Authorization", "Bearer tok123"); ("Content-Type", "application/json")]
          [] [] (Some (VDict [("title", VNone)])) []].
Proof.
  destruct (verbs_reuse_token ProofAPI.BASE_URL "/p1" None VNone None false
              sample_client not_found_world eq_refl) as (A & _).
  destruct (verbs_reuse_token TasksAPI.BASE_URL "/t-7" None (VDict [("title", VNone)])
              None false sample_client not_found_world eq_refl) as (_ & _ & _ & B).
  split; [reflexivity|]. split; [rewrite A; reflexivity|rewrite B; reflexivity].
Defined.

Lemma filter_data_shape_witness :
  TasksAPI.filter_data (VStr "control") (VStr "c-1") VNone (VStr "u-1") (VStr "u-2") VNone
  = Ok [("targetObjectType", VStr "control"); ("targetObjectIds", VList [VStr "c-1"]);
        ("assigneeIds", VList [VStr "u-1"; VStr "u-2"])]
  /\ In ("assigneeIds", VList [VStr "u-1"; VStr "u-2"])
        [("targetObjectType", VStr "control"); ("targetObjectIds", VList [VStr "c-1"]);
         ("assigneeIds", VList [VStr "u-1"; VStr "u-2"])]
  /\ is_list (VList [VStr "u-1"; VStr "u-2"]) = true.
Proof.
  destruct (filter_data_shape (VStr "control") (VStr "c-1") VNone (VStr "u-1")
              (VStr "u-2") VNone) as (data & D & _ & _ & L & _).
  inversion D; subst data.
  split; [reflexivity|].
  assert (I : In ("assigneeIds", VList [VStr "u-1"; VStr "u-2"])
                 [("targetObjectType", VStr "control");
                  ("targetObjectIds", VList [VStr "c-1"]);
                  ("assigneeIds", VList [VStr "u-1"; VStr "u-2"])])
    by (simpl; auto).
  split; [exact I|].
  apply (L "assigneeIds" _ I). right; right; reflexivity.
Defined.
